(** * Lighter connector: nonces, auth tokens, reconnect backoff,
      subscription ceiling and inbound order messages

    A shallow embedding of the Lighter connector of hummingbot
    ([hummingbot/connector/exchange/lighter] and
    [hummingbot/connector/derivative/lighter_perpetual]).

    Python integers are [Z]; Python floats are binary64 primitive floats;
    [str] values are [string]s; dictionaries are [gmap]s, or association
    lists where the iteration order is observable.  A method of an object
    becomes a function that takes the object's state and returns the new
    state next to its result.  Calls that leave the connector (the signing
    SDK, the logger, the WebSocket transport, the order tracker of the core)
    are recorded as events. *)

From Stdlib Require Import ZArith Bool Ascii String List Sorted Lia.
From Stdlib Require Import PrimFloat SpecFloat FloatOps.
From stdpp Require Import gmap strings pretty list fin_maps.

Set Warnings "-register-all".
Open Scope Z_scope.

(* ===================================================================== *)
(** * Part I: the embedding *)
(* ===================================================================== *)

(** ** Python strings: [str.lower] and the [in] operator *)

Module PyStr.

(** [c.lower()] on one ASCII character: 'A'..'Z' move down by 32. *)
Definition lower_ascii (c : ascii) : ascii :=
  let n := nat_of_ascii c in
  if (Nat.leb 65 n && Nat.leb n 90)%bool then ascii_of_nat (n + 32) else c.

(** [s.lower()].  A string is the sequence of its UTF-8 bytes; the letters
    'A'..'Z' are lowered and every other byte is left as it is.  For the
    ASCII markers searched in this development the [in] test on the result
    agrees with Python's on the lowered text. *)
Fixpoint lower (s : string) : string :=
  match s with
  | EmptyString => EmptyString
  | String c r => String (lower_ascii c) (lower r)
  end.

(** [s.startswith(p)]. *)
Fixpoint startswith (p s : string) : bool :=
  match p with
  | EmptyString => true
  | String a p' =>
      match s with
      | EmptyString => false
      | String b s' => (Ascii.eqb a b && startswith p' s')%bool
      end
  end.

(** [needle in hay]: [needle] starts at some position of [hay]. *)
Fixpoint contains (needle hay : string) : bool :=
  (startswith needle hay
   || match hay with
      | EmptyString => false
      | String _ r => contains needle r
      end)%bool.

End PyStr.

(** ** [_NonceManager] (lighter_auth.py)

    The lock makes [next] and [set] atomic: each is one step on the
    counter [_last]. *)

Module _NonceManager.

Record t : Type := Build { _last : Z }.

(** [__init__]: [self._last = 0]. *)
Definition init : t := Build 0.

(** [next]: [self._last += 1; return self._last]. *)
Definition next (m : t) : Z * t :=
  let m' := Build (_last m + 1) in
  (_last m', m').

(** [set]: [if value > self._last: self._last = value]. *)
Definition set (value : Z) (m : t) : t :=
  if _last m <? value then Build value else m.

(** [n] successive calls of [next]: the values returned, in call order,
    and the manager after the last call. *)
Fixpoint next_n (n : nat) (m : t) : list Z * t :=
  match n with
  | O => ([], m)
  | S k =>
      let '(v, m1) := next m in
      let '(vs, m2) := next_n k m1 in
      (v :: vs, m2)
  end.

End _NonceManager.

(** ** Python values

    A decoded JSON document ([json.loads]) and the Python value it stands
    for: [None], [bool], [int], [float], [str], [list] and [dict] with
    string keys. *)

Inductive json : Type :=
| JNull
| JBool (b : bool)
| JInt (n : Z)
| JFloat (f : float)
| JStr (s : string)
| JArr (items : list json)
| JObj (fields : gmap string json).

Module Py.

(** [float(n)] for an [int]: the nearest binary64 value, ties to even.
    Where the rounded value leaves the binary64 range Python raises
    [OverflowError]; [fits_float] tells the two cases apart. *)
Definition float_of_int (n : Z) : float :=
  SF2Prim (binary_normalize prec emax n 0 false).

Definition fits_float (n : Z) : bool :=
  negb (PrimFloat.is_infinity (float_of_int n)).

(** [min(a, b)]: the first argument unless the second is smaller. *)
Definition min (a b : float) : float :=
  if PrimFloat.ltb b a then b else a.

(** Truth value of a Python value, as [if x:] and [not x] take it. *)
Definition truthy (v : json) : bool :=
  match v with
  | JNull => false
  | JBool b => b
  | JInt n => negb (n =? 0)
  | JFloat f => negb (PrimFloat.eqb f 0)
  | JStr s => negb (String.eqb s "")
  | JArr items => match items with [] => false | _ :: _ => true end
  | JObj fields => negb (Nat.eqb (size fields) 0)
  end.

(** [d.get(key)]: the value, or [None]. *)
Definition get (d : gmap string json) (key : string) : json :=
  default JNull (d !! key).

(** [d.get(key, dflt)]. *)
Definition get_or (d : gmap string json) (key : string) (dflt : json) : json :=
  default dflt (d !! key).

(** [key in d]. *)
Definition has_key (d : gmap string json) (key : string) : bool :=
  match d !! key with Some _ => true | None => false end.

End Py.

(** ** Constants (lighter_constants.py) *)

Module CONSTANTS.

Definition ORDER_TYPE_LIMIT : Z := 0.
Definition ORDER_TIME_IN_FORCE_IMMEDIATE_OR_CANCEL : Z := 0.
Definition ORDER_TIME_IN_FORCE_GOOD_TILL_TIME : Z := 1.

Definition CREATE_ORDER_URL : string := "/api/v1/sendTx".
Definition CANCEL_ORDER_URL : string := "/api/v1/sendTx".
Definition CANCEL_ALL_ORDERS_URL : string := "/api/v1/sendTxBatch".
Definition ACCOUNT_INFO_URL : string := "/api/v1/account".

Definition TRADES_ENDPOINT_NAME : string := "trades".
Definition DEPTH_ENDPOINT_NAME : string := "orderbook".

Definition WS_MAX_SUBSCRIPTIONS : Z := 1000.

Definition INITIAL_BACKOFF : float := 1%float.
Definition MAX_BACKOFF : float := 60%float.
Definition BACKOFF_MULTIPLIER : float := 2%float.

End CONSTANTS.

(** ** [LighterAuth] (lighter_auth.py) *)

(** A call made on the SDK's [SignerClient], with its keyword arguments. *)
Inductive SignerCall : Type :=
| CreateAuthTokenWithExpiry (expiry_seconds : Z)
| SignCreateOrder (market_id is_buy base_amount price order_type
                   time_in_force client_order_index : json) (nonce : Z)
| SignCancelOrder (market_id order_index : json) (nonce : Z)
| SignCancelAllOrders (time_in_force : json) (nonce : Z).

(** What the SDK answers.  The SDK is not part of the connector: its
    answers are parameters of the embedding.  The auth token may depend on
    the calls made before (tokens are not required to repeat). *)
Record SignerClient : Type := {
  create_auth_token_with_expiry : list SignerCall -> Z -> string;
  sign_create_order : json -> json -> json -> json -> json -> json -> json -> Z -> json;
  sign_cancel_order : json -> json -> Z -> json;
  sign_cancel_all_orders : json -> Z -> json
}.

(** [RESTMethod] of the core. *)
Inductive RESTMethod : Type := GET | POST | PUT | DELETE.

(** The fields of the core's [RESTRequest] that the connector touches.
    [data] is the JSON text of the body, kept decoded: a JSON object (or
    no body) on the way in, whatever [add_auth_to_params_post] builds on the
    way out. *)
Record RESTRequest (D : Type) : Type := {
  rest_method : RESTMethod;
  rest_url : string;
  rest_headers : option (gmap string string);
  rest_data : option D
}.
Arguments Build_RESTRequest {D} _ _ _ _.
Arguments rest_method {D} _.
Arguments rest_url {D} _.
Arguments rest_headers {D} _.
Arguments rest_data {D} _.


Module LighterAuth.

(** The mutable fields of a [LighterAuth]; [_signer_client] holds the calls
    made on the SDK object so far, oldest first. *)
Record t : Type := Build {
  _nonce : _NonceManager.t;
  _auth_token : option string;
  _auth_token_expiry : float;
  _signer_client : list SignerCall
}.

(** [__init__]. *)
Definition init : t := Build _NonceManager.init None 0%float [].

Definition call_signer (c : SignerCall) (a : t) : t :=
  Build (_nonce a) (_auth_token a) (_auth_token_expiry a) (_signer_client a ++ [c]).

(** [self._auth_token and time.time() < self._auth_token_expiry], with
    [now] the reading of [time.time()]. *)
Definition token_usable (now : float) (a : t) : bool :=
  match _auth_token a with
  | Some token => (negb (String.eqb token "") && PrimFloat.ltb now (_auth_token_expiry a))%bool
  | None => false
  end.

(** The header update shared by [rest_authenticate] and [ws_authenticate]:
    [if request.headers is None: request.headers = {}] and then
    [request.headers["Authorization"] = f"Bearer {self._auth_token}"]. *)
Definition attach_token (now : float) (a : t)
    (headers : option (gmap string string)) : option (gmap string string) :=
  if token_usable now a then
    Some (<["Authorization" := ("Bearer " ++ default "" (_auth_token a))%string]>
            (default ∅ headers))
  else headers.

(** [set_auth_token(token, expiry_seconds)], [now] read by [time.time()],
    for an [expiry_seconds] that converts to a float ([Py.fits_float]; the
    connector passes 3600). *)
Definition set_auth_token (token : string) (expiry_seconds : Z) (now : float)
    (a : t) : t :=
  Build (_nonce a) (Some token)
        (now + Py.float_of_int expiry_seconds)%float (_signer_client a).

(** [create_auth_token(expiry_seconds)]. *)
Definition create_auth_token (sdk : SignerClient) (expiry_seconds : Z)
    (now : float) (a : t) : string * t :=
  let token := create_auth_token_with_expiry sdk (_signer_client a) expiry_seconds in
  let a1 := call_signer (CreateAuthTokenWithExpiry expiry_seconds) a in
  (token, set_auth_token token expiry_seconds now a1).

(** [get_next_nonce]. *)
Definition get_next_nonce (a : t) : Z * t :=
  let '(n, m) := _NonceManager.next (_nonce a) in
  (n, Build m (_auth_token a) (_auth_token_expiry a) (_signer_client a)).

(** [_sign_create_order_params(params, nonce)]. *)
Definition _sign_create_order_params (sdk : SignerClient)
    (params : gmap string json) (nonce : Z) (a : t) : json * t :=
  let market_id := Py.get params "market_id" in
  let is_buy := Py.get params "is_buy" in
  let base_amount := Py.get params "base_amount" in
  let price := Py.get params "price" in
  let order_type := Py.get_or params "order_type" (JInt CONSTANTS.ORDER_TYPE_LIMIT) in
  let time_in_force :=
    Py.get_or params "time_in_force" (JInt CONSTANTS.ORDER_TIME_IN_FORCE_GOOD_TILL_TIME) in
  let client_order_index := Py.get params "client_order_index" in
  (sign_create_order sdk market_id is_buy base_amount price order_type
     time_in_force client_order_index nonce,
   call_signer (SignCreateOrder market_id is_buy base_amount price order_type
                  time_in_force client_order_index nonce) a).

(** [_sign_cancel_order_params(params, nonce)]. *)
Definition _sign_cancel_order_params (sdk : SignerClient)
    (params : gmap string json) (nonce : Z) (a : t) : json * t :=
  let market_id := Py.get params "market_id" in
  let order_index := Py.get params "order_index" in
  (sign_cancel_order sdk market_id order_index nonce,
   call_signer (SignCancelOrder market_id order_index nonce) a).

(** [_sign_cancel_all_orders_params(params, nonce)]. *)
Definition _sign_cancel_all_orders_params (sdk : SignerClient)
    (params : gmap string json) (nonce : Z) (a : t) : json * t :=
  let time_in_force :=
    Py.get_or params "time_in_force"
      (JInt CONSTANTS.ORDER_TIME_IN_FORCE_IMMEDIATE_OR_CANCEL) in
  (sign_cancel_all_orders sdk time_in_force nonce,
   call_signer (SignCancelAllOrders time_in_force nonce) a).

(** [add_auth_to_params_post(params, url)].  [params] is the body that
    [json.loads] decodes, a JSON object, or [None]; the result is the
    payload handed to [json.dumps].  [OrderedDict(data or {})] is the
    decoded object itself (the empty one for [None]). *)
Definition add_auth_to_params_post (sdk : SignerClient)
    (params : option (gmap string json)) (url : string) (a : t) : json * t :=
  let '(nonce, a1) := get_next_nonce a in
  let request_params : gmap string json := default ∅ params in
  if PyStr.contains "/sendTx" url then
    if (Py.has_key request_params "market_id"
        && Py.has_key request_params "base_amount")%bool then
      _sign_create_order_params sdk request_params nonce a1
    else if Py.has_key request_params "order_index" then
      _sign_cancel_order_params sdk request_params nonce a1
    else
      (JObj (<["tx" := JObj request_params]> (<["nonce" := JInt nonce]> ∅)), a1)
  else if PyStr.contains "/sendTxBatch" url then
    _sign_cancel_all_orders_params sdk request_params nonce a1
  else
    (JObj request_params, a1).

(** [rest_authenticate(request)], [now] read by [time.time()] when a token
    is cached. *)
Definition rest_authenticate (sdk : SignerClient) (now : float)
    (request : RESTRequest (gmap string json)) (a : t) : RESTRequest json * t :=
  let headers := attach_token now a (rest_headers request) in
  match rest_method request with
  | POST =>
      let '(payload, a1) :=
        add_auth_to_params_post sdk (rest_data request) (rest_url request) a in
      (Build_RESTRequest POST (rest_url request) headers (Some payload), a1)
  | m =>
      (Build_RESTRequest m (rest_url request) headers (JObj <$> rest_data request), a)
  end.


End LighterAuth.

(** Observations on the calls made on the SDK. *)
Definition is_token_call (c : SignerCall) : bool :=
  match c with CreateAuthTokenWithExpiry _ => true | _ => false end.

Definition is_cancel_all_call (c : SignerCall) : bool :=
  match c with SignCancelAllOrders _ _ => true | _ => false end.

(** The auth object after one more [get_next_nonce]. *)
Definition bump (a : LighterAuth.t) : LighterAuth.t :=
  snd (LighterAuth.get_next_nonce a).

(** ** Exceptions, completions and events *)

(** A raised exception: [asyncio.CancelledError], which [except Exception]
    does not catch, or an [Exception] with its class name and [str(e)]. *)
Inductive exn : Type :=
| CancelledError
| PyExc (cls : string) (msg : string).

(** How a call ends.  [Blocked]: the call is suspended on the transport,
    whose scripted answers are used up. *)
Inductive Completion : Type :=
| Returned
| Raised (e : exn)
| Blocked.

(** The log statements of the modelled functions, with the values they
    interpolate. *)
Inductive LogRecord : Type :=
| InfoConnected
| WarnRateLimitBackoff (backoff : float)
| WarnSubscriptionLimit
| InfoSubscribed (trading_pair : string) (total : Z)
| ErrorSubscriptionLimitExceeded
| ErrorUnexpectedSubscribing
| DebugUnknownOrder (client_order_id : json)
| DebugOrderNotTracked
| ExceptionProcessingOrderMessage.

(** The core's [OrderState]. *)
Inductive OrderState : Type :=
| PENDING_CREATE | OPEN | PENDING_CANCEL | CANCELED | PARTIALLY_FILLED
| FILLED | FAILED | PENDING_APPROVAL | APPROVED | CREATED | COMPLETED.

(** [new_state] of an [OrderUpdate]: a mapped state, or the raw status when
    the perpetual connector finds no mapping for it. *)
Inductive NewState : Type :=
| State (st : OrderState)
| RawStatus (status : json).

Record OrderUpdate : Type := {
  upd_trading_pair : string;
  upd_update_timestamp : json;
  upd_new_state : NewState;
  upd_client_order_id : json;
  upd_exchange_order_id : string
}.

(** What a modelled function does to the world outside it, in order. *)
Inductive Event : Type :=
| Sleep (seconds : float)
| Log (r : LogRecord)
| StartPingThread
| WsSend (payload : json)
| UpdateExchangeOrderId (client_order_id exchange_order_id : string)
| ProcessOrderUpdate (u : OrderUpdate).

Definition is_sleep (ev : Event) : option float :=
  match ev with Sleep b => Some b | _ => None end.

Definition is_send (ev : Event) : option json :=
  match ev with WsSend m => Some m | _ => None end.

Definition is_tracker_call (ev : Event) : bool :=
  match ev with
  | UpdateExchangeOrderId _ _ | ProcessOrderUpdate _ => true
  | _ => false
  end.

(** The seconds slept, the messages sent and the calls made on the order
    tracker in a run. *)
Definition waits (evs : list Event) : list float := omap is_sleep evs.
Definition sent (evs : list Event) : list json := omap is_send evs.
Definition tracker_calls (evs : list Event) : list Event := filter is_tracker_call evs.

(** ** The reconnect loop of the data sources *)

(** One answer of [ws.connect]. *)
Inductive ConnectOutcome : Type :=
| ConnectOk
| ConnectRaises (e : exn).

Module Reconnect.

(** The test on [error_msg = str(e).lower()]. *)
Definition is_rate_limit_error (str_e : string) : bool :=
  let error_msg := PyStr.lower str_e in
  (PyStr.contains "429" error_msg
   || PyStr.contains "too many" error_msg
   || PyStr.contains "rate limit" error_msg)%bool.

(** [min(self._current_backoff * BACKOFF_MULTIPLIER, MAX_BACKOFF)]. *)
Definition next_backoff (current_backoff : float) : float :=
  Py.min (current_backoff * CONSTANTS.BACKOFF_MULTIPLIER)%float CONSTANTS.MAX_BACKOFF.

End Reconnect.

(** ** [LighterAPILighterAPIOrderBookDataSource] (lighter_api_order_book_data_source.py) *)

Module LighterAPIOrderBookDataSource.

Record t : Type := Build {
  _trading_pairs : list string;
  _current_backoff : float;
  _subscription_count : Z
}.

(** [__init__]. *)
Definition init (trading_pairs : list string) : t :=
  Build trading_pairs CONSTANTS.INITIAL_BACKOFF 0.

(** The [while True] loop of [_connected_websocket_assistant], run against
    the successive answers of [ws.connect]: the completion, the stored
    backoff afterwards and the events. *)
Fixpoint connect_loop (attempts : list ConnectOutcome) (current_backoff : float)
    : Completion * float * list Event :=
  match attempts with
  | [] => (Blocked, current_backoff, [])
  | ConnectOk :: _ =>
      (Returned, CONSTANTS.INITIAL_BACKOFF, [Log InfoConnected])
  | ConnectRaises CancelledError :: _ =>
      (Raised CancelledError, current_backoff, [])
  | ConnectRaises (PyExc cls msg) :: rest =>
      if Reconnect.is_rate_limit_error msg then
        let '(c, b, evs) := connect_loop rest (Reconnect.next_backoff current_backoff) in
        (c, b, Log (WarnRateLimitBackoff current_backoff) :: Sleep current_backoff :: evs)
      else
        (Raised (PyExc cls msg), current_backoff, [])
  end.

(** [_connected_websocket_assistant]. *)
Definition _connected_websocket_assistant (attempts : list ConnectOutcome) (ds : t)
    : Completion * t * list Event :=
  let '(c, b, evs) := connect_loop attempts (_current_backoff ds) in
  (c, Build (_trading_pairs ds) b (_subscription_count ds), evs).

Definition subscribe_payload (channel : string) (market_id : json) : json :=
  JObj (<["method" := JStr "subscribe"]>
          (<["channel" := JStr channel]> (<["market_id" := market_id]> ∅))).

(** The [for] loop of [_subscribe_channels].  [market_id_of] answers
    [exchange_symbol_associated_to_pair] followed by [get_market_id] (a
    market id, or the exception raised); [send k] answers the [k]-th
    [ws.send] of the call ([None]: sent).  [k] counts the sends attempted so
    far.  The result: the exception that left the loop, if any, the
    subscription count and the events. *)
Fixpoint subscribe_loop (market_id_of : string -> json + exn)
    (send : nat -> option exn) (pairs : list string) (k : nat)
    (subscription_count : Z) : option exn * Z * list Event :=
  match pairs with
  | [] => (None, subscription_count, [])
  | trading_pair :: rest =>
      if CONSTANTS.WS_MAX_SUBSCRIPTIONS <=? subscription_count then
        (None, subscription_count, [Log WarnSubscriptionLimit])
      else
        match market_id_of trading_pair with
        | inr e => (Some e, subscription_count, [])
        | inl market_id =>
            let trades := subscribe_payload CONSTANTS.TRADES_ENDPOINT_NAME market_id in
            let order_book := subscribe_payload CONSTANTS.DEPTH_ENDPOINT_NAME market_id in
            match send k with
            | Some e => (Some e, subscription_count, [])
            | None =>
                let count1 := subscription_count + 1 in
                match send (S k) with
                | Some e => (Some e, count1, [WsSend trades])
                | None =>
                    let count2 := count1 + 1 in
                    let '(r, c, evs) :=
                      subscribe_loop market_id_of send rest (S (S k)) count2 in
                    (r, c, WsSend trades :: WsSend order_book
                           :: Log (InfoSubscribed trading_pair count2) :: evs)
                end
            end
        end
  end.

(** [_subscribe_channels]: the loop inside its [try]; [CancelledError] is
    re-raised as it is, any other exception is logged and re-raised. *)
Definition _subscribe_channels (market_id_of : string -> json + exn)
    (send : nat -> option exn) (ds : t) : Completion * t * list Event :=
  let '(r, c, evs) :=
    subscribe_loop market_id_of send (_trading_pairs ds) 0 (_subscription_count ds) in
  let ds' := Build (_trading_pairs ds) (_current_backoff ds) c in
  match r with
  | None => (Returned, ds', evs)
  | Some CancelledError => (Raised CancelledError, ds', evs)
  | Some (PyExc cls msg) =>
      let error_msg := PyStr.lower msg in
      if PyStr.contains "too many subscriptions" error_msg then
        (Raised (PyExc cls msg), ds', evs ++ [Log ErrorSubscriptionLimitExceeded])
      else
        (Raised (PyExc cls msg), ds', evs ++ [Log ErrorUnexpectedSubscribing])
  end.

End LighterAPIOrderBookDataSource.

(** ** [LighterAPILighterAPIUserStreamDataSource] (lighter_api_user_stream_data_source.py)

    [LighterPerpetualAPILighterAPIUserStreamDataSource] has the same
    [_connected_websocket_assistant] and [_get_auth_token]. *)

Module LighterAPIUserStreamDataSource.

(** The data source keeps a reference to the connector's [LighterAuth]: the
    functions below take and return that object next to the data source's
    own fields. *)
Record t : Type := Build {
  _auth_token : option string;
  _current_backoff : float
}.

(** [__init__]. *)
Definition init : t := Build None CONSTANTS.INITIAL_BACKOFF.

(** [_get_auth_token]: [self._auth.create_auth_token(expiry_seconds=3600)];
    [now] is the reading of [time.time()] inside it. *)
Definition _get_auth_token (sdk : SignerClient) (now : float)
    (ds : t) (auth : LighterAuth.t) : t * LighterAuth.t :=
  let '(token, auth') := LighterAuth.create_auth_token sdk 3600 now auth in
  (Build (Some token) (_current_backoff ds), auth').

(** The [while True] loop of [_connected_websocket_assistant].  Each answer
    of [ws.connect] comes with the reading of [time.time()] used by the
    token refresh that follows a rate-limit failure. *)
Fixpoint connect_loop (sdk : SignerClient) (attempts : list (ConnectOutcome * float))
    (ds : t) (auth : LighterAuth.t) : Completion * t * LighterAuth.t * list Event :=
  match attempts with
  | [] => (Blocked, ds, auth, [])
  | (ConnectOk, _) :: _ =>
      (Returned, Build (_auth_token ds) CONSTANTS.INITIAL_BACKOFF, auth,
       [Log InfoConnected; StartPingThread])
  | (ConnectRaises CancelledError, _) :: _ =>
      (Raised CancelledError, ds, auth, [])
  | (ConnectRaises (PyExc cls msg), now) :: rest =>
      if Reconnect.is_rate_limit_error msg then
        let current_backoff := _current_backoff ds in
        let ds1 := Build (_auth_token ds) (Reconnect.next_backoff current_backoff) in
        let '(ds2, auth2) := _get_auth_token sdk now ds1 auth in
        let '(c, ds3, auth3, evs) := connect_loop sdk rest ds2 auth2 in
        (c, ds3, auth3,
         Log (WarnRateLimitBackoff current_backoff) :: Sleep current_backoff :: evs)
      else
        (Raised (PyExc cls msg), ds, auth, [])
  end.

(** [_connected_websocket_assistant]: the token is created at [now0], then
    the loop runs. *)
Definition _connected_websocket_assistant (sdk : SignerClient) (now0 : float)
    (attempts : list (ConnectOutcome * float)) (ds : t) (auth : LighterAuth.t)
    : Completion * t * LighterAuth.t * list Event :=
  let '(ds1, auth1) := _get_auth_token sdk now0 ds auth in
  connect_loop sdk attempts ds1 auth1.

End LighterAPIUserStreamDataSource.

(** ** Observations on reconnect runs *)

(** The failures that the loops retry: an [Exception] whose text matches a
    rate-limit marker. *)
Definition is_retried (o : ConnectOutcome) : bool :=
  match o with
  | ConnectRaises (PyExc _ msg) => Reconnect.is_rate_limit_error msg
  | ConnectRaises CancelledError | ConnectOk => false
  end.

(** The backoff stored after [n] retried failures, and the seconds slept
    on the way, from a stored backoff [b]. *)
Fixpoint backoff_after (n : nat) (b : float) : float :=
  match n with
  | O => b
  | S k => backoff_after k (Reconnect.next_backoff b)
  end.

Fixpoint backoff_waits (n : nat) (b : float) : list float :=
  match n with
  | O => []
  | S k => b :: backoff_waits k (Reconnect.next_backoff b)
  end.

(** The [k]-th wait (from 0) of a run that starts at the initial backoff:
    1, 2, 4, 8, 16, 32 and then 60 for ever. *)
Definition expected_wait (k : nat) : float :=
  nth k [1; 2; 4; 8; 16; 32]%float 60%float.

(** ** Inbound order messages: [_process_order_message] *)

(** The attributes of the core's [InFlightOrder] that the connectors read.
    [client_order_index] is [None] for an order object without that
    attribute ([hasattr] is false) and otherwise the integer index that
    [_place_order] derives from the client order id. *)
Module InFlightOrder.

Record t : Type := Build {
  client_order_id : string;
  exchange_order_id : option string;
  trading_pair : string;
  current_state : OrderState;
  client_order_index : option Z
}.

End InFlightOrder.

Module OrderMsg.

(** Whether a Python value can be a dictionary key: lists and dicts are
    unhashable, and looking one up raises [TypeError]. *)
Definition hashable (v : json) : bool :=
  match v with
  | JArr _ | JObj _ => false
  | _ => true
  end.

Definition unhashable_error (v : json) : exn :=
  match v with
  | JObj _ => PyExc "TypeError" "unhashable type: 'dict'"
  | _ => PyExc "TypeError" "unhashable type: 'list'"
  end.

(** [n == f] for an [int] and a [float]: equality of the exact values. *)
Definition int_eq_float (n : Z) (f : float) : bool :=
  match Prim2SF f with
  | S754_zero _ => n =? 0
  | S754_finite sign m e =>
      let v := if sign then Z.neg m else Z.pos m in
      if 0 <=? e then n =? v * 2 ^ e else n * 2 ^ (- e) =? v
  | S754_infinity _ | S754_nan => false
  end.

(** [n == v] for an [int] and a decoded JSON value ([True] is 1, [False]
    is 0; an [int] equals no [None], [str], [list] or [dict]). *)
Definition int_eq (n : Z) (v : json) : bool :=
  match v with
  | JInt m => n =? m
  | JBool b => n =? (if b then 1 else 0)
  | JFloat f => int_eq_float n f
  | _ => false
  end.

(** [x / 1000.0], or [None] where Python raises ([TypeError] for a value
    that is no number, [OverflowError] for an [int] beyond the floats). *)
Definition div_1000 (x : json) : option float :=
  match x with
  | JInt n =>
      if Py.fits_float n then Some (Py.float_of_int n / 1000)%float else None
  | JBool b => Some ((if b then 1 else 0) / 1000)%float
  | JFloat f => Some (f / 1000)%float
  | _ => None
  end.

(** [orders.get(key)] on the tracker's dictionary of orders, kept in
    insertion order with distinct keys. *)
Fixpoint lookup_order (orders : list (string * InFlightOrder.t)) (key : string)
    : option InFlightOrder.t :=
  match orders with
  | [] => None
  | (k, o) :: rest => if String.eqb k key then Some o else lookup_order rest key
  end.

(** The first order of [orders.values()] whose [client_order_index]
    attribute exists and equals [index]. *)
Fixpoint find_by_client_order_index (orders : list (string * InFlightOrder.t))
    (index : json) : option InFlightOrder.t :=
  match orders with
  | [] => None
  | (_, o) :: rest =>
      match InFlightOrder.client_order_index o with
      | Some n =>
          if int_eq n index then Some o else find_by_client_order_index rest index
      | None => find_by_client_order_index rest index
      end
  end.

(** The orders whose exchange order id is [id]: the lookup that neither
    connector makes. *)
Definition orders_with_exchange_id (orders : list (string * InFlightOrder.t))
    (id : string) : list InFlightOrder.t :=
  filter (fun o => bool_decide (InFlightOrder.exchange_order_id o = Some id)) (map snd orders).

(** [lighter_constants.ORDER_STATE]. *)
Definition ORDER_STATE : gmap string OrderState :=
  <["open" := OPEN]> (<["pending" := PENDING_CREATE]> (<["filled" := FILLED]>
  (<["partially_filled" := PARTIALLY_FILLED]> (<["canceled" := CANCELED]>
  (<["cancelled" := CANCELED]> (<["rejected" := FAILED]> (<["expired" := CANCELED]>
  (<["failed" := FAILED]> ∅)))))))).

End OrderMsg.

(** ** [LighterExchange] (lighter_exchange.py) *)

Module LighterExchange.

(** [_process_order_message(order_msg)] on a message that is a dictionary.  [py_str] is Python's [str];
    [orders] is [self._order_tracker.all_updatable_orders].  Every exception
    raised inside is caught and logged, so the function always returns (the
    core's [process_order_update] is taken to return). *)
Definition _process_order_message (py_str : json -> string)
    (orders : list (string * InFlightOrder.t)) (order_msg : gmap string json)
    : list Event :=
  let index := Py.get order_msg "client_order_index" in
  match OrderMsg.find_by_client_order_index orders index with
  | None => [Log DebugOrderNotTracked]
  | Some tracked_order =>
      let order_status := Py.get_or order_msg "status" (JStr "") in
      if negb (OrderMsg.hashable order_status) then [Log ExceptionProcessingOrderMessage]
      else
        let new_state :=
          match order_status with
          | JStr st => default (InFlightOrder.current_state tracked_order) (OrderMsg.ORDER_STATE !! st)
          | _ => InFlightOrder.current_state tracked_order
          end in
        match OrderMsg.div_1000 (Py.get_or order_msg "timestamp" (JInt 0)) with
        | None => [Log ExceptionProcessingOrderMessage]
        | Some update_timestamp =>
            [ProcessOrderUpdate
               {| upd_trading_pair := InFlightOrder.trading_pair tracked_order;
                  upd_update_timestamp := JFloat update_timestamp;
                  upd_new_state := State new_state;
                  upd_client_order_id := JStr (InFlightOrder.client_order_id tracked_order);
                  upd_exchange_order_id :=
                    py_str (Py.get_or order_msg "order_index" (JStr "")) |}]
        end
  end.

End LighterExchange.

(** ** [LighterPerpetualDerivative] (lighter_perpetual_derivative.py) *)

Module LighterPerpetualDerivative.

(** [_process_order_message(order_msg)] on a message that is a dictionary.
    [ORDER_STATUS_MAP] is the table of the perpetual connector's constants
    and [current_timestamp] the connector's clock. *)
Definition _process_order_message (py_str : json -> string)
    (ORDER_STATUS_MAP : gmap string OrderState) (current_timestamp : float)
    (orders : list (string * InFlightOrder.t)) (order_msg : gmap string json)
    : Completion * list Event :=
  let client_order_id := Py.get order_msg "client_order_id" in
  if negb (Py.truthy client_order_id) then (Returned, [])
  else if negb (OrderMsg.hashable client_order_id) then
    (Raised (OrderMsg.unhashable_error client_order_id), [])
  else
    let found :=
      match client_order_id with
      | JStr key => OrderMsg.lookup_order orders key
      | _ => None
      end in
    match found with
    | None => (Returned, [Log (DebugUnknownOrder client_order_id)])
    | Some tracked_order =>
        match order_msg !! "status" with
        | None => (Raised (PyExc "KeyError" "'status'"), [])
        | Some status =>
            match order_msg !! "order_id" with
            | None => (Raised (PyExc "KeyError" "'order_id'"), [])
            | Some order_id =>
                let exchange_order_id := py_str order_id in
                let ev1 :=
                  UpdateExchangeOrderId (InFlightOrder.client_order_id tracked_order)
                    exchange_order_id in
                if negb (OrderMsg.hashable status) then
                  (Raised (OrderMsg.unhashable_error status), [ev1])
                else
                  let new_state :=
                    match status with
                    | JStr st =>
                        match ORDER_STATUS_MAP !! st with
                        | Some mapped => State mapped
                        | None => RawStatus status
                        end
                    | _ => RawStatus status
                    end in
                  (Returned,
                   [ev1;
                    ProcessOrderUpdate
                      {| upd_trading_pair := InFlightOrder.trading_pair tracked_order;
                         upd_update_timestamp :=
                           Py.get_or order_msg "updated_at" (JFloat current_timestamp);
                         upd_new_state := new_state;
                         upd_client_order_id := client_order_id;
                         upd_exchange_order_id := exchange_order_id |}])
            end
        end
    end.

End LighterPerpetualDerivative.

(** ** Concrete scenarios *)

Module Scenario.

(** An SDK whose tokens are numbered by the calls made before, and whose
    signed transactions carry the transaction type of lighter_constants.py
    ([TX_TYPE_L2_CREATE_ORDER] = 14, [TX_TYPE_L2_CANCEL_ORDER] = 15,
    [TX_TYPE_L2_CANCEL_ALL_ORDERS] = 16) and the nonce. *)
Definition signed (tx_type nonce : Z) : json :=
  JObj (<["tx_type" := JInt tx_type]> (<["nonce" := JInt nonce]> ∅)).

Definition sdk : SignerClient := {|
  create_auth_token_with_expiry :=
    fun calls _ => ("token-" ++ pretty (length calls))%string;
  sign_create_order := fun _ _ _ _ _ _ _ nonce => signed 14 nonce;
  sign_cancel_order := fun _ _ nonce => signed 15 nonce;
  sign_cancel_all_orders := fun _ nonce => signed 16 nonce
|}.

(** [str] on the values the scenarios use: strings and integers. *)
Definition py_str (v : json) : string :=
  match v with
  | JStr s => s
  | JInt n => pretty n
  | _ => ""
  end.

(** An auth object holding the token "cached", valid until 3700. *)
Definition auth_cached : LighterAuth.t :=
  LighterAuth.Build _NonceManager.init (Some "cached") 3700%float [].

Definition cancel_all_url : string :=
  "https://mainnet.zklighter.elliot.ai/api/v1/sendTxBatch".
Definition send_tx_url : string :=
  "https://mainnet.zklighter.elliot.ai/api/v1/sendTx".
Definition account_url : string :=
  "https://mainnet.zklighter.elliot.ai/api/v1/account".

Definition cancel_all_params : gmap string json :=
  {[ "time_in_force" := JInt 0 ]}.
Definition cancel_params : gmap string json :=
  <["market_id" := JInt 1]> {[ "order_index" := JStr "77" ]}.

Definition get_account : RESTRequest (gmap string json) :=
  Build_RESTRequest GET account_url None None.

(** One tracked order, known to the exchange as order 77. *)
Definition order77 : InFlightOrder.t :=
  InFlightOrder.Build "HBOT-1" (Some "77") "ETH-USDC" OPEN (Some 4242).

Definition tracked : list (string * InFlightOrder.t) := [("HBOT-1"%string, order77)].

(** A pushed update for order 77 that carries no client id. *)
Definition push_without_client_id : gmap string json :=
  <["order_id" := JStr "77"]> {[ "status" := JStr "filled" ]}.

(** A pushed update for an order this connector does not track. *)
Definition push_unknown : gmap string json :=
  <["client_order_id" := JStr "HBOT-9"]> (<["order_id" := JStr "78"]>
  {[ "status" := JStr "open" ]}).

Definition market_id_of (trading_pair : string) : json + exn := inl (JInt 1).
Definition send_ok (k : nat) : option exn := None.

End Scenario.

(** ** Sequences of nonce operations *)

(** A call on a [_NonceManager]. *)
Inductive NonceOp : Type :=
| OpNext
| OpSet (value : Z).

(** The calls of [ops] made in order on one manager (the lock serialises
    them): the values returned by the [next] calls, in order, and the manager
    afterwards. *)
Fixpoint nonce_run (ops : list NonceOp) (m : _NonceManager.t) : list Z * _NonceManager.t :=
  match ops with
  | [] => ([], m)
  | OpNext :: rest =>
      let '(v, m1) := _NonceManager.next m in
      let '(vs, m2) := nonce_run rest m1 in
      (v :: vs, m2)
  | OpSet value :: rest => nonce_run rest (_NonceManager.set value m)
  end.

(** ** More of lighter_constants.py *)

Module lighter_constants.

Definition DOMAIN : string := "lighter".
Definition TESTNET_DOMAIN : string := "lighter_testnet".

Definition BASE_URL : string := "https://mainnet.zklighter.elliot.ai".
Definition TESTNET_BASE_URL : string := "https://testnet.zklighter.elliot.ai".
Definition WS_URL : string := "wss://mainnet.zklighter.elliot.ai/ws".
Definition TESTNET_WS_URL : string := "wss://testnet.zklighter.elliot.ai/ws".

Definition USER_ORDERS_ENDPOINT_NAME : string := "orders".
Definition USEREVENT_ENDPOINT_NAME : string := "fills".

Definition ORDER_TYPE_MARKET : Z := 1.
Definition ORDER_TIME_IN_FORCE_POST_ONLY : Z := 2.

Definition ORDER_NOT_EXIST_MESSAGE : string := "order not found".
Definition UNKNOWN_ORDER_MESSAGE : string := "Order does not exist".

End lighter_constants.

(** ** lighter_web_utils.py *)

Module web_utils.

(** [LighterRESTPreProcessor.pre_process(request)]. *)
Definition pre_process {D : Type} (request : RESTRequest D) : RESTRequest D :=
  let headers := default ∅ (rest_headers request) in
  Build_RESTRequest (rest_method request) (rest_url request)
    (Some (<["Accept" := "application/json"%string]>
             (<["Content-Type" := "application/json"%string]> headers)))
    (rest_data request).

(** [rest_url(path_url, domain)]; [private_rest_url] and [public_rest_url]
    pass their arguments on to it. *)
Definition rest_url (path_url domain : string) : string :=
  let base_url :=
    if String.eqb domain "lighter" then lighter_constants.BASE_URL
    else lighter_constants.TESTNET_BASE_URL in
  (base_url ++ path_url)%string.

Definition private_rest_url (path_url domain : string) : string := rest_url path_url domain.
Definition public_rest_url (path_url domain : string) : string := rest_url path_url domain.

(** [wss_url(domain)]. *)
Definition wss_url (domain : string) : string :=
  if String.eqb domain "lighter" then lighter_constants.WS_URL
  else lighter_constants.TESTNET_WS_URL.





End web_utils.

(** ** Python operators on decoded values *)

(** The exception classes raised by the operators below. *)
Inductive ErrorClass : Type :=
| TypeError | AttributeError | KeyError | ValueError | OverflowError | IOError.

Module PyOp.

(** [needle in v] for a string [needle]: a substring test on a [str],
    membership in a [list], a key test on a [dict]; [None] where Python
    raises [TypeError]. *)
Definition str_in (needle : string) (v : json) : option bool :=
  match v with
  | JStr s => Some (PyStr.contains needle s)
  | JArr items =>
      Some (existsb (fun x => match x with
                              | JStr t => String.eqb t needle
                              | _ => false
                              end) items)
  | JObj fields => Some (Py.has_key fields needle)
  | JNull | JBool _ | JInt _ | JFloat _ => None
  end.

(** [v in names] for a list of strings: only an equal [str] is found. *)
Definition in_strs (v : json) (names : list string) : bool :=
  match v with
  | JStr s => existsb (String.eqb s) names
  | _ => false
  end.

(** [v[key]] for a string [key]: the value of a [dict], [KeyError] when the
    key is missing, [TypeError] on any other value. *)
Definition subscript (v : json) (key : string) : json + ErrorClass :=
  match v with
  | JObj fields =>
      match fields !! key with
      | Some x => inl x
      | None => inr KeyError
      end
  | _ => inr TypeError
  end.

End PyOp.

(** ** Routing of inbound messages *)

Module OrderBookMessages.


End OrderBookMessages.

Module UserStreamMessages.

(** What [_process_event_message] does with a message. *)
Inductive EventOutcome : Type :=
| Queued
| Dropped
| RaisedWssError (err_msg : json)
| RaisedAttributeError.

(** [_process_event_message(event_message, queue)] of the user stream data
    sources; [channels] is the list the message's channel is looked up in
    (orders and fills for the spot connector; the perpetual one adds its
    position and funding channels).  [RaisedWssError err_msg] is the
    [IOError] labelled "WSS_ERROR" whose text interpolates [err_msg];
    [Queued] is [queue.put_nowait(event_message)] on the unbounded queue of
    the core. *)
Definition _process_event_message (channels : list string)
    (event_message : gmap string json) : EventOutcome :=
  match Py.get event_message "error" with
  | JNull =>
      if PyOp.in_strs (Py.get event_message "channel") channels then Queued
      else Dropped
  | JObj error => RaisedWssError (Py.get_or error "message" (JObj error))
  | _ => RaisedAttributeError
  end.

(** The channel list of [LighterAPIUserStreamDataSource]. *)
Definition spot_channels : list string :=
  [lighter_constants.USER_ORDERS_ENDPOINT_NAME; lighter_constants.USEREVENT_ENDPOINT_NAME].

Definition private_subscribe_payload (channel : string) (account_index : Z) : json :=
  JObj (<["method" := JStr "subscribe"]>
          (<["channel" := JStr channel]> (<["account_index" := JInt account_index]> ∅))).

(** What [_subscribe_channels] and [_ping_thread] do to the world. *)
Inductive StreamEvent : Type :=
| StreamSleep (seconds : float)
| StreamSend (payload : json) (is_auth_required : bool)
| LogInfoSubscribed
| LogExceptionSubscribing
| LogExceptionPing.

Definition stream_sent (evs : list StreamEvent) : list json :=
  omap (fun ev => match ev with StreamSend p _ => Some p | _ => None end) evs.

(** [LighterAPIUserStreamDataSource._subscribe_channels(websocket_assistant)]
    for an auth object with [account_index]; [send k] answers the [k]-th
    [send] ([None]: sent). *)
Definition _subscribe_channels (account_index : Z) (send : nat -> option exn)
    : Completion * list StreamEvent :=
  let orders := StreamSend (private_subscribe_payload
                              lighter_constants.USER_ORDERS_ENDPOINT_NAME account_index) true in
  let fills := StreamSend (private_subscribe_payload
                             lighter_constants.USEREVENT_ENDPOINT_NAME account_index) true in
  let failed (e : exn) (evs : list StreamEvent) :=
    match e with
    | CancelledError => (Raised CancelledError, evs)
    | PyExc _ _ => (Raised e, evs ++ [LogExceptionSubscribing])
    end in
  match send 0%nat with
  | Some e => failed e []
  | None =>
      match send 1%nat with
      | Some e => failed e [orders]
      | None => (Returned, [orders; fills; LogInfoSubscribed])
      end
  end.

(** One turn of the heartbeat loop, as the world answers it: the sleep is
    cancelled, or the sleep ends and the [send] of the ping returns or
    raises. *)
Inductive PingStep : Type :=
| SleepCancelled
| SendOk
| SendRaises (e : exn).

Definition HEARTBEAT_TIME_INTERVAL : float := 30%float.

Definition ping_payload : json := JObj (<["method" := JStr "ping"]> ∅).

(** [_ping_thread(websocket_assistant)] against the answers [steps]. *)
Fixpoint _ping_thread (steps : list PingStep) : Completion * list StreamEvent :=
  match steps with
  | [] => (Blocked, [])
  | SleepCancelled :: _ => (Returned, [])
  | SendOk :: rest =>
      let '(c, evs) := _ping_thread rest in
      (c, StreamSleep HEARTBEAT_TIME_INTERVAL :: StreamSend ping_payload false :: evs)
  | SendRaises CancelledError :: _ =>
      (Returned, [StreamSleep HEARTBEAT_TIME_INTERVAL])
  | SendRaises (PyExc _ _) :: _ =>
      (Returned, [StreamSleep HEARTBEAT_TIME_INTERVAL; LogExceptionPing])
  end.

End UserStreamMessages.

(** ** Numbers: [int(x)] and the integer formats of lighter_web_utils.py *)

Module PyNum.

(** [int(f)] for a [float]: truncation towards zero; [ValueError] for a
    NaN and [OverflowError] for an infinity. *)
Definition int_of_float (f : float) : Z + ErrorClass :=
  match Prim2SF f with
  | S754_nan => inr ValueError
  | S754_infinity _ => inr OverflowError
  | S754_zero _ => inl 0
  | S754_finite sign m e =>
      let v := if 0 <=? e then Z.pos m * 2 ^ e else Z.pos m / 2 ^ (- e) in
      inl (if sign then - v else v)
  end.

(** [x / 1000.0] with the class of the exception raised. *)
Definition truediv_1000 (x : json) : float + ErrorClass :=
  match x with
  | JInt n =>
      if Py.fits_float n then inl (Py.float_of_int n / 1000)%float else inr OverflowError
  | JBool b => inl ((if b then 1 else 0) / 1000)%float
  | JFloat f => inl (f / 1000)%float
  | _ => inr TypeError
  end.

(** [format_price_for_lighter(price, decimals)], that is
    [int(price * (10 ** decimals))], for [decimals >= 0] (the connectors use
    the default 8): the power is an [int] and is converted to a float for
    the product. *)
Definition format_price_for_lighter (price : float) (decimals : nat) : Z + ErrorClass :=
  let scale := 10 ^ Z.of_nat decimals in
  if Py.fits_float scale then int_of_float (price * Py.float_of_int scale)%float
  else inr OverflowError.

(** [format_amount_for_lighter(amount, decimals)]: the same computation. *)
Definition format_amount_for_lighter (amount : float) (decimals : nat) : Z + ErrorClass :=
  let scale := 10 ^ Z.of_nat decimals in
  if Py.fits_float scale then int_of_float (amount * Py.float_of_int scale)%float
  else inr OverflowError.

(** [parse_price_from_lighter(price_int, decimals)], that is
    [float(price_int) / (10 ** decimals)], for [decimals >= 0]. *)
Definition parse_price_from_lighter (price_int : Z) (decimals : nat) : float + ErrorClass :=
  let scale := 10 ^ Z.of_nat decimals in
  if (Py.fits_float price_int && Py.fits_float scale)%bool then
    inl (Py.float_of_int price_int / Py.float_of_int scale)%float
  else inr OverflowError.

(** [parse_amount_from_lighter(amount_int, decimals)]: the same computation. *)
Definition parse_amount_from_lighter (amount_int : Z) (decimals : nat) : float + ErrorClass :=
  let scale := 10 ^ Z.of_nat decimals in
  if (Py.fits_float amount_int && Py.fits_float scale)%bool then
    inl (Py.float_of_int amount_int / Py.float_of_int scale)%float
  else inr OverflowError.

(** An integer from the exchange decoded and encoded again. *)
Definition price_round_trip (price_int : Z) : Z + ErrorClass :=
  match parse_price_from_lighter price_int 8 with
  | inl price => format_price_for_lighter price 8
  | inr e => inr e
  end.

End PyNum.

(** ** lighter_utils.py: the validators of the configuration *)

Module lighter_utils.

(** [validate_int(value, min_val, max_val)]; [py_int] is Python's [int] on
    a string ([None]: [ValueError]).  The result is the error message, or
    [None] for a valid value. *)
Definition validate_int (py_int : string -> option Z) (value : string)
    (min_val max_val : option Z) : option string :=
  match py_int value with
  | None => Some "Value must be an integer"%string
  | Some int_val =>
      let too_small := match min_val with Some lo => int_val <? lo | None => false end in
      let too_large := match max_val with Some hi => hi <? int_val | None => false end in
      if too_small then Some ("Value must be at least " ++ pretty (default 0 min_val))%string
      else if too_large then Some ("Value must be at most " ++ pretty (default 0 max_val))%string
      else None
  end.

(** [isinstance(v, int)] with the integer: a [bool] is an [int] (1 or 0). *)
Definition as_int (v : json) : option Z :=
  match v with
  | JInt n => Some n
  | JBool b => Some (if b then 1 else 0)
  | _ => None
  end.

(** The body shared by the two field validators: a string is checked by
    [validate_int] and converted, then the value must be an [int] within the
    bounds.  The result is the validated value, or the text of the
    [ValueError] raised. *)
Definition validate_index (py_int : string -> option Z) (field range_error : string)
    (min_val max_val : option Z) (v : json) : json + string :=
  let check (v : json) : json + string :=
    match as_int v with
    | None => inr range_error
    | Some n =>
        let too_small := match min_val with Some lo => n <? lo | None => false end in
        let too_large := match max_val with Some hi => hi <? n | None => false end in
        if (too_small || too_large)%bool then inr range_error else inl v
    end in
  match v with
  | JStr s =>
      match validate_int py_int s min_val max_val with
      | Some error => inr (field ++ ": " ++ error)%string
      | None =>
          match py_int s with
          | Some n => check (JInt n)
          | None => inr (field ++ ": Value must be an integer")%string
          end
      end
  | _ => check v
  end.

(** [LighterConfigMap.validate_api_key_index(v)] (and the testnet one). *)
Definition validate_api_key_index (py_int : string -> option Z) (v : json) : json + string :=
  validate_index py_int "API key index" "API key index must be between 2 and 254"
    (Some 2) (Some 254) v.

(** [LighterConfigMap.validate_account_index(v)] (and the testnet one). *)
Definition validate_account_index (py_int : string -> option Z) (v : json) : json + string :=
  validate_index py_int "Account index" "Account index must be a positive integer"
    (Some 0) None v.

End lighter_utils.

(** ** Placing and cancelling orders *)

Module OrderType.
Inductive t : Type := MARKET | LIMIT | LIMIT_MAKER | AMM_SWAP.
End OrderType.

Module TradeType.
Inductive t : Type := BUY | SELL | RANGE.
End TradeType.

Module PositionAction.
Inductive t : Type := OPEN | CLOSE | NIL.
End PositionAction.

(** What the functions below do outside themselves: a request through the
    connector's [_api_post] or [_api_delete], a debug log line, a call of
    the order tracker's [process_order_not_found]. *)
Inductive OrderEvent : Type :=
| ApiPost (path_url : string) (data : gmap string json)
| ApiDelete (path_url : string)
| LogDebugNoCancellationNeeded
| ProcessOrderNotFound (client_order_id : string).

(** How they end: with their result, or with an exception of some class and
    text. *)
Inductive OrderOutcome (A : Type) : Type :=
| Done (result : A)
| Fails (cls : ErrorClass) (text : string).
Arguments Done {A} _.
Arguments Fails {A} _ _.

Module LighterExchangeOrders.

(** [get_market_id(symbol)]: [self.symbol_to_market_id.get(symbol, 0)]. *)
Definition get_market_id (symbol_to_market_id : gmap string json) (symbol : string) : json :=
  default (JInt 0) (symbol_to_market_id !! symbol).

(** The order type and time in force that [_place_order] picks. *)
Definition lighter_order_kind (order_type : OrderType.t) : Z * Z :=
  match order_type with
  | OrderType.MARKET =>
      (lighter_constants.ORDER_TYPE_MARKET, CONSTANTS.ORDER_TIME_IN_FORCE_IMMEDIATE_OR_CANCEL)
  | OrderType.LIMIT_MAKER =>
      (CONSTANTS.ORDER_TYPE_LIMIT, lighter_constants.ORDER_TIME_IN_FORCE_POST_ONLY)
  | _ => (CONSTANTS.ORDER_TYPE_LIMIT, CONSTANTS.ORDER_TIME_IN_FORCE_GOOD_TILL_TIME)
  end.

(** [api_params] of [_place_order]. *)
Definition place_order_params (market_id : json) (trade_type : TradeType.t)
    (amount_int price_int : Z) (order_type : OrderType.t) (client_order_index : Z)
    : gmap string json :=
  <["market_id" := market_id]>
  (<["is_buy" := JBool (match trade_type with TradeType.BUY => true | _ => false end)]>
  (<["base_amount" := JInt amount_int]>
  (<["price" := JInt price_int]>
  (<["order_type" := JInt (fst (lighter_order_kind order_type))]>
  (<["time_in_force" := JInt (snd (lighter_order_kind order_type))]>
  (<["client_order_index" := JInt client_order_index]> ∅)))))).

(** [LighterExchange._place_order(order_id, trading_pair, amount, trade_type,
    order_type, price)].  [symbol] is the exchange symbol of the pair,
    [amount] and [price] are [float(amount)] and [float(price)],
    [client_order_index] is the index derived from the MD5 digest of
    [order_id], [order_result] is what [_api_post] returns and
    [current_timestamp] the connector's clock.  The result is the pair
    (exchange order id, timestamp). *)
Definition _place_order (py_str : json -> string)
    (symbol_to_market_id : gmap string json) (symbol order_id : string)
    (amount price : float) (trade_type : TradeType.t) (order_type : OrderType.t)
    (client_order_index : Z) (order_result : json) (current_timestamp : float)
    : OrderOutcome (string * float) * list OrderEvent :=
  let market_id := get_market_id symbol_to_market_id symbol in
  match PyNum.format_price_for_lighter price 8 with
  | inr cls => (Fails cls "", [])
  | inl price_int =>
      match PyNum.format_amount_for_lighter amount 8 with
      | inr cls => (Fails cls "", [])
      | inl amount_int =>
          let api_params :=
            place_order_params market_id trade_type amount_int price_int order_type
              client_order_index in
          let post := ApiPost CONSTANTS.CREATE_ORDER_URL api_params in
          match order_result with
          | JObj result =>
              if PyOp.in_strs (Py.get result "status") ["error"%string] then
                (Fails IOError
                   ("Error submitting order " ++ order_id ++ ": "
                    ++ py_str (Py.get result "message")), [post])
              else
                let exchange_order_id := py_str (Py.get_or result "order_index" (JStr "")) in
                let timestamp :=
                  match result !! "timestamp"%string with
                  | Some ts => PyNum.truediv_1000 ts
                  | None => inl ((current_timestamp * 1000) / 1000)%float
                  end in
                match timestamp with
                | inl seconds => (Done (exchange_order_id, seconds), [post])
                | inr cls => (Fails cls "", [post])
                end
          | _ => (Fails AttributeError "", [post])
          end
      end
  end.

(** [api_params] of [_place_cancel]. *)
Definition place_cancel_params (market_id : json) (exchange_order_id : option string)
    : gmap string json :=
  <["market_id" := market_id]>
  (<["order_index" := match exchange_order_id with
                      | Some id => JStr id
                      | None => JNull
                      end]> ∅).

(** [LighterExchange._place_cancel(order_id, tracked_order)];
    [cancel_result] is what [_api_post] returns. *)
Definition _place_cancel (py_str : json -> string)
    (symbol_to_market_id : gmap string json) (symbol order_id : string)
    (tracked_order : InFlightOrder.t) (cancel_result : json)
    : OrderOutcome bool * list OrderEvent :=
  let market_id := get_market_id symbol_to_market_id symbol in
  let post :=
    ApiPost CONSTANTS.CANCEL_ORDER_URL
      (place_cancel_params market_id (InFlightOrder.exchange_order_id tracked_order)) in
  match cancel_result with
  | JObj result =>
      if PyOp.in_strs (Py.get result "status") ["error"%string] then
        let error_msg := Py.get_or result "message" (JStr "") in
        let raised :=
          Fails IOError
            ("Error cancelling order " ++ order_id ++ ": " ++ py_str error_msg) in
        match PyOp.str_in lighter_constants.ORDER_NOT_EXIST_MESSAGE error_msg with
        | None => (Fails TypeError "", [post])
        | Some true =>
            (raised, [post; LogDebugNoCancellationNeeded; ProcessOrderNotFound order_id])
        | Some false => (raised, [post])
        end
      else (Done true, [post])
  | _ => (Fails AttributeError "", [post])
  end.

(** [_is_order_not_found_during_status_update_error] and
    [_is_order_not_found_during_cancelation_error] on [str(exception)]. *)
Definition _is_order_not_found_during_status_update_error (str_e : string) : bool :=
  PyStr.contains lighter_constants.ORDER_NOT_EXIST_MESSAGE str_e.

Definition _is_order_not_found_during_cancelation_error (str_e : string) : bool :=
  PyStr.contains lighter_constants.UNKNOWN_ORDER_MESSAGE str_e.

End LighterExchangeOrders.

Module LighterPerpetualOrders.

(** [api_params] of [LighterPerpetualDerivative._place_order]; [size] and
    [price] are [str(amount)] and [str(price)]. *)
Definition place_order_params (market_id : json) (trade_type : TradeType.t)
    (order_type : OrderType.t) (size price order_id : string)
    (position_action : PositionAction.t) : gmap string json :=
  <["market_id" := market_id]>
  (<["side" := JStr (match trade_type with TradeType.BUY => "buy" | _ => "sell" end)]>
  (<["type" := JStr (match order_type with
                     | OrderType.LIMIT_MAKER => "limit_maker"
                     | OrderType.MARKET => "market"
                     | _ => "limit"
                     end)]>
  (<["size" := JStr size]>
  (<["price" := JStr price]>
  (<["client_order_id" := JStr order_id]>
  (<["reduce_only" := JBool (match position_action with
                             | PositionAction.CLOSE => true
                             | _ => false
                             end)]> ∅)))))).

(** [LighterPerpetualDerivative._place_order].  [CREATE_ORDER_URL] is the
    constant of the perpetual connector; the result is the pair (exchange
    order id, [self.current_timestamp]). *)
Definition _place_order (py_str : json -> string) (CREATE_ORDER_URL : string)
    (symbol_to_market_id : gmap string json) (symbol order_id size price : string)
    (trade_type : TradeType.t) (order_type : OrderType.t)
    (position_action : PositionAction.t) (order_result : json)
    (current_timestamp : float) : OrderOutcome (json * float) * list OrderEvent :=
  match Py.get symbol_to_market_id symbol with
  | JNull => (Fails ValueError ("Market ID not found for symbol " ++ symbol), [])
  | market_id =>
      let post :=
        ApiPost CREATE_ORDER_URL
          (place_order_params market_id trade_type order_type size price order_id
             position_action) in
      match order_result with
      | JObj result =>
          if negb (Py.truthy (Py.get result "success")) then
            (Fails IOError
               ("Error submitting order " ++ order_id ++ ": "
                ++ py_str (Py.get result "error")), [post])
          else
            match PyOp.subscript order_result "data" with
            | inr cls => (Fails cls "", [post])
            | inl data =>
                match PyOp.subscript data "order_id" with
                | inr cls => (Fails cls "", [post])
                | inl exchange_order_id =>
                    (Done (exchange_order_id, current_timestamp), [post])
                end
            end
      | _ => (Fails AttributeError "", [post])
      end
  end.

(** [LighterPerpetualDerivative._place_cancel]; [cancel_url] is
    [CANCEL_ORDER_URL.format(order_id=...)] of the perpetual connector. *)
Definition _place_cancel (py_str : json -> string) (cancel_url : string -> string)
    (symbol_to_market_id : gmap string json) (symbol order_id : string)
    (cancel_result : json) : OrderOutcome bool * list OrderEvent :=
  match Py.get symbol_to_market_id symbol with
  | JNull => (Fails ValueError ("Market ID not found for symbol " ++ symbol), [])
  | _ =>
      let delete := ApiDelete (cancel_url order_id) in
      match cancel_result with
      | JObj result =>
          if Py.truthy (Py.get result "success") then (Done true, [delete])
          else
            let error_msg := Py.get_or result "error" (JStr "Unknown error") in
            (Fails IOError ("Order cancellation failed: " ++ py_str error_msg),
             [delete; LogDebugNoCancellationNeeded; ProcessOrderNotFound order_id])
      | _ => (Fails AttributeError "", [delete])
      end
  end.

(** [_is_order_not_found_during_cancelation_error] (and the status-update
    one, which is the same test) on [str(exception)]. *)
Definition _is_order_not_found_during_cancelation_error (str_e : string) : bool :=
  PyStr.contains "not found" (PyStr.lower str_e).

End LighterPerpetualOrders.

(** The tracker calls among the events of a run. *)
Definition not_found_calls (evs : list OrderEvent) : list string :=
  omap (fun ev => match ev with ProcessOrderNotFound id => Some id | _ => None end) evs.

(** ** Successive calls of [_subscribe_channels] on one data source *)

(** One connection: how the connector and the transport answer during the
    call. *)
Definition SubscribeWorld : Type := (string -> json + exn) * (nat -> option exn).

(** The calls made one after the other on the same data source (one per
    connection): the data source afterwards and the events of each call. *)
Fixpoint subscribe_calls (worlds : list SubscribeWorld)
    (ds : LighterAPIOrderBookDataSource.t)
    : LighterAPIOrderBookDataSource.t * list (list Event) :=
  match worlds with
  | [] => (ds, [])
  | (market_id_of, send) :: rest =>
      let '(_, ds1, evs) :=
        LighterAPIOrderBookDataSource._subscribe_channels market_id_of send ds in
      let '(ds2, evss) := subscribe_calls rest ds1 in
      (ds2, evs :: evss)
  end.

(** The number of pings that go out before the heartbeat meets its first
    cancelled sleep or failed send. *)
Fixpoint leading_pings (steps : list UserStreamMessages.PingStep) : nat :=
  match steps with
  | UserStreamMessages.SendOk :: rest => S (leading_pings rest)
  | _ => O
  end.

Definition is_send_ok (step : UserStreamMessages.PingStep) : bool :=
  match step with UserStreamMessages.SendOk => true | _ => false end.

(** ** More concrete scenarios *)

Module Scenario2.


(** A push on the orders channel whose error is a bare string. *)
Definition error_text_message : gmap string json :=
  <["error" := JStr "rate limited"]> {[ "channel" := JStr "orders" ]}.

(** The exchange's answer to a cancel of an order it no longer has. *)
Definition cancel_rejected : gmap string json :=
  <["status" := JStr "error"]> {[ "message" := JStr "order not found" ]}.

(** The perpetual exchange's answer to a cancel it turned down without
    saying why. *)
Definition cancel_failed : gmap string json :=
  {[ "success" := JBool false ]}.

(** The market ids of a perpetual connector with one market. *)
Definition perp_markets : gmap string json :=
  {[ "ETH" := JInt 1 ]}.

End Scenario2.

(* ===================================================================== *)
(** * Part II: properties *)
(* ===================================================================== *)

(** ** Python values *)

Example float_of_int_3600 : Py.float_of_int 3600 = 3600%float.
Proof. reflexivity. Qed.

(** 2^53 + 1 lies half way between two floats and goes to the even one. *)
Example float_of_int_ties_to_even :
  Py.float_of_int (2 ^ 53 + 1) = 9007199254740992%float
  /\ Py.float_of_int (2 ^ 53 + 3) = 9007199254740996%float.
Proof. split; reflexivity. Qed.

Example fits_float_range :
  Py.fits_float (2 ^ 1023) = true /\ Py.fits_float (2 ^ 1024) = false.
Proof. split; vm_compute; reflexivity. Qed.

Example rate_limit_markers :
  Reconnect.is_rate_limit_error "Server rejected WebSocket connection: HTTP 429" = true
  /\ Reconnect.is_rate_limit_error "Too Many Requests" = true
  /\ Reconnect.is_rate_limit_error "RATE LIMIT exceeded" = true
  /\ Reconnect.is_rate_limit_error "Connection refused" = false.
Proof. repeat split. Qed.

(** ** Nonces *)

Lemma next_n_values (n : nat) (m : _NonceManager.t) :
  fst (_NonceManager.next_n n m)
  = map (fun i => _NonceManager._last m + Z.of_nat i) (seq 1 n).
Proof.
  revert m. induction n as [|n IH]; intros m.
  { reflexivity. }
  cbn [_NonceManager.next_n _NonceManager.next].
  specialize (IH (_NonceManager.Build (_NonceManager._last m + 1))).
  destruct (_NonceManager.next_n n _) as [vs m2]. cbn [fst] in *.
  rewrite IH. cbn [seq map _NonceManager._last].
  rewrite <- (seq_shift n 1), map_map. f_equal.
  apply map_ext. intros i. lia.
Qed.

Lemma next_n_last (n : nat) (m : _NonceManager.t) :
  _NonceManager._last (snd (_NonceManager.next_n n m))
  = _NonceManager._last m + Z.of_nat n.
Proof.
  revert m. induction n as [|n IH]; intros m.
  - cbn. lia.
  - cbn [_NonceManager.next_n _NonceManager.next].
    specialize (IH (_NonceManager.Build (_NonceManager._last m + 1))).
    destruct (_NonceManager.next_n n _) as [vs m2]. cbn [snd] in *.
    rewrite IH. cbn [_NonceManager._last]. lia.
Qed.

(** C1.  [next] returns the counter plus one and stores it, so a call that
    follows another returns exactly one more than that call returned; the
    counter starts at 0 and the first call returns 1; [N] successive calls
    from counter value [k] return [k+1], ..., [k+N] in this order, without
    repeats, and every value from [k+1] to [k+N] is among them. *)
Theorem nonce_next_consecutive :
  fst (_NonceManager.next _NonceManager.init) = 1
  /\ (forall m : _NonceManager.t,
         fst (_NonceManager.next m) = _NonceManager._last m + 1
         /\ fst (_NonceManager.next (snd (_NonceManager.next m)))
            = fst (_NonceManager.next m) + 1)
  /\ (forall (N : nat) (m : _NonceManager.t),
         let k := _NonceManager._last m in
         let out := fst (_NonceManager.next_n N m) in
         out = map (fun i => k + Z.of_nat i) (seq 1 N)
         /\ List.NoDup out
         /\ (forall v : Z, In v out <-> k + 1 <= v <= k + Z.of_nat N)
         /\ _NonceManager._last (snd (_NonceManager.next_n N m)) = k + Z.of_nat N).
Proof.
  split; [reflexivity|]. split.
  - intros m. split; reflexivity.
  - intros N m k out. subst k out. rewrite next_n_values, next_n_last.
    split; [reflexivity|]. split; [|split; [|reflexivity]].
    + apply Finite.Injective_map_NoDup.
      * intros i j Hij. lia.
      * apply List.seq_NoDup.
    + intros v. rewrite in_map_iff. split.
      * intros (i & <- & Hi). apply in_seq in Hi. lia.
      * intros Hv. exists (Z.to_nat (v - _NonceManager._last m)). split; [lia|].
        apply in_seq. lia.
Qed.

(** C2.  [set v] stores [v] exactly when [v] is greater than the counter and
    otherwise leaves the counter as it is; the [next] that follows returns
    [v+1] in the first case and the old counter plus one in the second. *)
Theorem nonce_set_floor_advance (c v : Z) :
  let m := _NonceManager.Build c in
  (_NonceManager._last (_NonceManager.set v m) = v <-> (c < v \/ v = c))
  /\ (c < v -> _NonceManager.set v m = _NonceManager.Build v
               /\ fst (_NonceManager.next (_NonceManager.set v m)) = v + 1)
  /\ (v <= c -> _NonceManager.set v m = m
                /\ fst (_NonceManager.next (_NonceManager.set v m)) = c + 1).
Proof.
  cbn zeta. unfold _NonceManager.set. cbn [_NonceManager._last].
  destruct (Z.ltb_spec c v) as [Hlt|Hge]; cbn; repeat split; try lia.
  all: intros; try lia; try reflexivity.
Qed.

Lemma nonce_set_floor_advance_witness :
  fst (_NonceManager.next (_NonceManager.set 7 (_NonceManager.Build 3))) = 7 + 1
  /\ fst (_NonceManager.next (_NonceManager.set 2 (_NonceManager.Build 3))) = 3 + 1.
Proof.
  split.
  - apply (proj1 (proj2 (nonce_set_floor_advance 3 7))). lia.
  - apply (proj2 (proj2 (nonce_set_floor_advance 3 2))). lia.
Defined.

(** ** Substrings *)

Lemma startswith_app (p q s : string) :
  PyStr.startswith (p ++ q) s = true -> PyStr.startswith p s = true.
Proof.
  revert s. induction p as [|a p IH]; intros s H; [reflexivity|].
  destruct s as [|b s]; cbn in *; [discriminate|].
  apply andb_true_iff in H as [Hab Hrest].
  rewrite Hab. cbn. now apply IH.
Qed.

Lemma contains_app (p q s : string) :
  PyStr.contains (p ++ q) s = true -> PyStr.contains p s = true.
Proof.
  induction s as [|b s IH]; cbn [PyStr.contains]; intros H.
  - apply orb_true_iff in H as [H|H]; [|discriminate].
    apply startswith_app in H. now rewrite H.
  - apply orb_true_iff in H as [H|H].
    + apply startswith_app in H. now rewrite H.
    + rewrite (IH H). apply orb_true_r.
Qed.

(** A URL that contains "/sendTxBatch" contains "/sendTx". *)
Lemma sendTxBatch_contains_sendTx (url : string) :
  PyStr.contains "/sendTx" url = false -> PyStr.contains "/sendTxBatch" url = false.
Proof.
  intros H. destruct (PyStr.contains "/sendTxBatch" url) eqn:E; [|reflexivity].
  change "/sendTxBatch"%string with ("/sendTx" ++ "Batch")%string in E.
  apply contains_app in E. congruence.
Qed.

(** ** [LighterAuth] *)

(** [add_auth_to_params_post] with the branch that cannot be taken left
    out: the test on "/sendTxBatch" is only reached by URLs without
    "/sendTx". *)
Lemma add_auth_to_params_post_branches (sdk : SignerClient)
    (params : option (gmap string json)) (url : string) (a : LighterAuth.t) :
  let nonce := _NonceManager._last (LighterAuth._nonce a) + 1 in
  let request_params : gmap string json := default ∅ params in
  LighterAuth.add_auth_to_params_post sdk params url a
  = if PyStr.contains "/sendTx" url then
      if (Py.has_key request_params "market_id"
          && Py.has_key request_params "base_amount")%bool then
        LighterAuth._sign_create_order_params sdk request_params nonce (bump a)
      else if Py.has_key request_params "order_index" then
        LighterAuth._sign_cancel_order_params sdk request_params nonce (bump a)
      else
        (JObj (<["tx" := JObj request_params]> (<["nonce" := JInt nonce]> ∅)), bump a)
    else (JObj request_params, bump a).
Proof.
  cbn zeta. unfold LighterAuth.add_auth_to_params_post, bump,
    LighterAuth.get_next_nonce, _NonceManager.next. cbn [snd _NonceManager._last].
  destruct (PyStr.contains "/sendTx" url) eqn:E; [reflexivity|].
  now rewrite (sendTxBatch_contains_sendTx _ E).
Qed.

Lemma add_auth_to_params_post_state (sdk : SignerClient)
    (params : option (gmap string json)) (url : string) (a : LighterAuth.t) :
  let a' := snd (LighterAuth.add_auth_to_params_post sdk params url a) in
  _NonceManager._last (LighterAuth._nonce a')
  = _NonceManager._last (LighterAuth._nonce a) + 1
  /\ LighterAuth._auth_token a' = LighterAuth._auth_token a
  /\ LighterAuth._auth_token_expiry a' = LighterAuth._auth_token_expiry a
  /\ filter is_token_call (LighterAuth._signer_client a')
     = filter is_token_call (LighterAuth._signer_client a)
  /\ filter is_cancel_all_call (LighterAuth._signer_client a')
     = filter is_cancel_all_call (LighterAuth._signer_client a).
Proof.
  cbn zeta. rewrite add_auth_to_params_post_branches. cbn zeta.
  destruct (PyStr.contains "/sendTx" url);
    [destruct (_ && _)%bool; [|destruct (Py.has_key _ "order_index")]|];
    cbn; rewrite ?filter_app; cbn; rewrite ?app_nil_r; auto.
Qed.

(** C5 (as stated, refuted).  With the token "cached" valid until 3700,
    a call of [create_auth_token] at time 100 does not return the cached
    token and does call the signing SDK. *)
Lemma create_auth_token_ignores_cache :
  ~ (forall (sdk : SignerClient) (a : LighterAuth.t) (now : float) (ttl : Z)
            (cached : string),
        LighterAuth._auth_token a = Some cached ->
        PrimFloat.ltb now (LighterAuth._auth_token_expiry a) = true ->
        fst (LighterAuth.create_auth_token sdk ttl now a) = cached
        /\ LighterAuth._signer_client (snd (LighterAuth.create_auth_token sdk ttl now a))
           = LighterAuth._signer_client a).
Proof.
  intros H.
  destruct (H Scenario.sdk Scenario.auth_cached 100%float 3600 "cached"%string
              eq_refl eq_refl) as [Htoken _].
  vm_compute in Htoken. discriminate Htoken.
Qed.

(** C5 (amended).  Every call of [create_auth_token], whatever the cache
    holds, asks the signing SDK for a new token (one more
    [create_auth_token_with_expiry] call), stores it with expiry
    [now + ttl], leaves the nonce alone and returns it, for every ttl that
    converts to a float; [_get_auth_token] of the user stream is that call
    with a ttl of 3600 seconds. *)
Theorem create_auth_token_always_requests (sdk : SignerClient) (ttl : Z)
    (now : float) (a : LighterAuth.t) (ds : LighterAPIUserStreamDataSource.t) :
  Py.fits_float ttl = true ->
  let r := LighterAuth.create_auth_token sdk ttl now a in
  fst r = create_auth_token_with_expiry sdk (LighterAuth._signer_client a) ttl
  /\ LighterAuth._signer_client (snd r)
     = LighterAuth._signer_client a ++ [CreateAuthTokenWithExpiry ttl]
  /\ LighterAuth._auth_token (snd r) = Some (fst r)
  /\ LighterAuth._auth_token_expiry (snd r) = (now + Py.float_of_int ttl)%float
  /\ LighterAuth._nonce (snd r) = LighterAuth._nonce a
  /\ LighterAPIUserStreamDataSource._get_auth_token sdk now ds a
     = (LighterAPIUserStreamDataSource.Build
          (Some (fst (LighterAuth.create_auth_token sdk 3600 now a)))
          (LighterAPIUserStreamDataSource._current_backoff ds),
        snd (LighterAuth.create_auth_token sdk 3600 now a)).
Proof. intros _. repeat split. Qed.

Lemma create_auth_token_always_requests_witness :
  LighterAuth.create_auth_token Scenario.sdk 3600 100%float Scenario.auth_cached
  = ("token-0"%string,
     LighterAuth.Build _NonceManager.init (Some "token-0"%string) 3700%float
       [CreateAuthTokenWithExpiry 3600]).
Proof.
  pose proof (create_auth_token_always_requests Scenario.sdk 3600 100%float
                Scenario.auth_cached LighterAPIUserStreamDataSource.init eq_refl)
    as (Htoken & Hcalls & Hcached & Hexpiry & Hnonce & _).
  destruct (LighterAuth.create_auth_token _ _ _ _) as [token [nonce cached expiry calls]].
  cbn [fst snd LighterAuth._signer_client LighterAuth._auth_token
         LighterAuth._auth_token_expiry LighterAuth._nonce] in *.
  now subst.
Defined.




(** C7 (code defect).  No call of [add_auth_to_params_post] ever reaches
    [sign_cancel_all_orders]: the calls of that kind on the SDK are the
    same before and after, for every body and URL.  A cancel-all body posted
    to the "/sendTxBatch" URL takes the "/sendTx" branch and comes back in
    the default wrapper, unsigned. *)
Theorem sendTxBatch_never_signs_cancel_all :
  (forall (sdk : SignerClient) (params : option (gmap string json)) (url : string)
          (a : LighterAuth.t),
      filter is_cancel_all_call
        (LighterAuth._signer_client
           (snd (LighterAuth.add_auth_to_params_post sdk params url a)))
      = filter is_cancel_all_call (LighterAuth._signer_client a))
  /\ PyStr.contains "/sendTxBatch" Scenario.cancel_all_url = true
  /\ LighterAuth.add_auth_to_params_post Scenario.sdk
       (Some Scenario.cancel_all_params) Scenario.cancel_all_url LighterAuth.init
     = (JObj (<["tx" := JObj Scenario.cancel_all_params]> (<["nonce" := JInt 1]> ∅)),
        LighterAuth.Build (_NonceManager.Build 1) None 0%float []).
Proof.
  split; [|split].
  - intros sdk params url a.
    apply (add_auth_to_params_post_state sdk params url a).
  - reflexivity.
  - reflexivity.
Qed.

(** The three signing paths and the fallback on a "/sendTx" URL. *)
Lemma add_auth_to_params_post_sendTx (sdk : SignerClient)
    (request_params : gmap string json) (url : string) (a : LighterAuth.t) :
  PyStr.contains "/sendTx" url = true ->
  let nonce := _NonceManager._last (LighterAuth._nonce a) + 1 in
  let r := LighterAuth.add_auth_to_params_post sdk (Some request_params) url a in
  (Py.has_key request_params "market_id" = true ->
   Py.has_key request_params "base_amount" = true ->
   r = LighterAuth._sign_create_order_params sdk request_params nonce (bump a))
  /\ (Py.has_key request_params "market_id" && Py.has_key request_params "base_amount"
      = false ->
      Py.has_key request_params "order_index" = true ->
      r = LighterAuth._sign_cancel_order_params sdk request_params nonce (bump a))
  /\ (Py.has_key request_params "market_id" && Py.has_key request_params "base_amount"
      = false ->
      Py.has_key request_params "order_index" = false ->
      r = (JObj (<["tx" := JObj request_params]> (<["nonce" := JInt nonce]> ∅)), bump a)).
Proof.
  intros Hurl nonce r. subst r nonce.
  rewrite add_auth_to_params_post_branches. cbn zeta. rewrite Hurl.
  change (default ∅ (Some request_params)) with request_params.
  repeat split.
  - now intros -> ->.
  - now intros -> ->.
  - now intros -> ->.
Qed.

(** C10.  Every call of [add_auth_to_params_post] moves the nonce counter
    up by exactly one, on every branch.  On a URL without "/sendTx" the
    payload is the body as it came (nothing is signed and no nonce is put
    in), yet the nonce is consumed: of two cancel transactions with such a
    POST between them, the first is signed with nonce [k+1] and the second
    with [k+3]. *)
Theorem post_consumes_one_nonce_on_every_branch (sdk : SignerClient)
    (params other : option (gmap string json)) (url tx_url other_url : string)
    (a : LighterAuth.t) :
  let k := _NonceManager._last (LighterAuth._nonce a) in
  let request_params : gmap string json := default ∅ params in
  _NonceManager._last
    (LighterAuth._nonce (snd (LighterAuth.add_auth_to_params_post sdk params url a)))
  = k + 1
  /\ (PyStr.contains "/sendTx" other_url = false ->
      LighterAuth.add_auth_to_params_post sdk other other_url a
      = (JObj (default ∅ other),
         LighterAuth.Build (_NonceManager.Build (k + 1)) (LighterAuth._auth_token a)
           (LighterAuth._auth_token_expiry a) (LighterAuth._signer_client a)))
  /\ (PyStr.contains "/sendTx" other_url = false ->
      PyStr.contains "/sendTx" tx_url = true ->
      Py.has_key request_params "base_amount" = false ->
      Py.has_key request_params "order_index" = true ->
      let '(_, a1) := LighterAuth.add_auth_to_params_post sdk params tx_url a in
      let '(p2, a2) := LighterAuth.add_auth_to_params_post sdk other other_url a1 in
      let '(_, a3) := LighterAuth.add_auth_to_params_post sdk params tx_url a2 in
      p2 = JObj (default ∅ other)
      /\ LighterAuth._signer_client a3
         = LighterAuth._signer_client a
           ++ [SignCancelOrder (Py.get request_params "market_id")
                 (Py.get request_params "order_index") (k + 1);
               SignCancelOrder (Py.get request_params "market_id")
                 (Py.get request_params "order_index") (k + 3)]
      /\ _NonceManager._last (LighterAuth._nonce a3) = k + 3).
Proof.
  cbn zeta. split; [|split].
  - apply (add_auth_to_params_post_state sdk params url a).
  - intros Hother. rewrite add_auth_to_params_post_branches. cbn zeta.
    now rewrite Hother.
  - intros Hother Htx Hbase Hidx.
    rewrite !add_auth_to_params_post_branches. cbn zeta.
    rewrite Htx, Hbase, Hidx, andb_false_r.
    cbn [LighterAuth._sign_cancel_order_params].
    rewrite add_auth_to_params_post_branches. cbn zeta. rewrite Hother.
    rewrite add_auth_to_params_post_branches. cbn zeta.
    rewrite Htx, Hbase, Hidx, andb_false_r.
    cbn. rewrite <- !app_assoc. cbn.
    replace (_NonceManager._last (LighterAuth._nonce a) + 1 + 1 + 1)
      with (_NonceManager._last (LighterAuth._nonce a) + 3) by lia.
    repeat split.
Qed.

Lemma post_consumes_one_nonce_on_every_branch_witness :
  LighterAuth.add_auth_to_params_post Scenario.sdk None Scenario.account_url
    LighterAuth.init
  = (JObj ∅, LighterAuth.Build (_NonceManager.Build 1) None 0%float [])
  /\ (let '(_, a1) := LighterAuth.add_auth_to_params_post Scenario.sdk
                        (Some Scenario.cancel_params) Scenario.send_tx_url
                        LighterAuth.init in
      let '(p2, a2) := LighterAuth.add_auth_to_params_post Scenario.sdk None
                         Scenario.account_url a1 in
      let '(_, a3) := LighterAuth.add_auth_to_params_post Scenario.sdk
                        (Some Scenario.cancel_params) Scenario.send_tx_url a2 in
      p2 = JObj ∅
      /\ LighterAuth._signer_client a3
         = [] ++ [SignCancelOrder (JInt 1) (JStr "77") (0 + 1);
                  SignCancelOrder (JInt 1) (JStr "77") (0 + 3)]
      /\ _NonceManager._last (LighterAuth._nonce a3) = 0 + 3).
Proof.
  split.
  - apply (proj1 (proj2 (post_consumes_one_nonce_on_every_branch Scenario.sdk
             None None Scenario.account_url Scenario.send_tx_url
             Scenario.account_url LighterAuth.init)) eq_refl).
  - apply (proj2 (proj2 (post_consumes_one_nonce_on_every_branch Scenario.sdk
             (Some Scenario.cancel_params) None Scenario.account_url
             Scenario.send_tx_url Scenario.account_url LighterAuth.init))
             eq_refl eq_refl eq_refl eq_refl).
Defined.

(** ** The reconnect loops *)

Lemma next_backoff_expected (k : nat) :
  Reconnect.next_backoff (expected_wait k) = expected_wait (S k).
Proof. do 7 (destruct k as [|k]; [reflexivity|]). reflexivity. Qed.

Lemma expected_wait_capped (k : nat) :
  PrimFloat.leb (expected_wait k) CONSTANTS.MAX_BACKOFF = true.
Proof. do 7 (destruct k as [|k]; [reflexivity|]). reflexivity. Qed.

Lemma backoff_after_expected (n k : nat) :
  backoff_after n (expected_wait k) = expected_wait (n + k).
Proof.
  revert k. induction n as [|n IH]; intros k; [reflexivity|].
  cbn [backoff_after]. rewrite next_backoff_expected, IH. f_equal. lia.
Qed.

Lemma backoff_waits_expected (n k : nat) :
  backoff_waits n (expected_wait k) = map expected_wait (seq k n).
Proof.
  revert k. induction n as [|n IH]; intros k; [reflexivity|].
  cbn [backoff_waits seq map]. now rewrite next_backoff_expected, IH.
Qed.


(** A run of retried failures: the loop sleeps once per failure and goes
    on with the rest of the transport's answers. *)
Lemma order_book_connect_loop_retries (attempts rest : list ConnectOutcome) (b : float) :
  forallb is_retried attempts = true ->
  exists evs : list Event,
    waits evs = backoff_waits (length attempts) b
    /\ sent evs = []
    /\ LighterAPIOrderBookDataSource.connect_loop (attempts ++ rest) b
       = (let '(c, b', evs') :=
            LighterAPIOrderBookDataSource.connect_loop rest (backoff_after (length attempts) b) in
          (c, b', evs ++ evs')).
Proof.
  revert b. induction attempts as [|o attempts IH]; intros b Hall.
  - exists []. cbn. repeat split.
    now destruct (LighterAPIOrderBookDataSource.connect_loop rest b) as [[c b'] evs'].
  - cbn [forallb] in Hall. apply andb_true_iff in Hall as [Ho Hall].
    destruct o as [|[|cls msg]]; try discriminate Ho. cbn [is_retried] in Ho.
    destruct (IH (Reconnect.next_backoff b) Hall) as (evs & Hw & Hs & Heq).
    exists (Log (WarnRateLimitBackoff b) :: Sleep b :: evs).
    cbn [length backoff_waits backoff_after app LighterAPIOrderBookDataSource.connect_loop].
    rewrite Ho, Heq.
    destruct (LighterAPIOrderBookDataSource.connect_loop rest _) as [[c b'] evs'].
    repeat split.
    + unfold waits in *. cbn. now rewrite Hw.
    + unfold sent in *. cbn. exact Hs.
Qed.

(** The user-stream loop makes the same decisions as the order-book loop:
    same completion, same stored backoff, same sleeps. *)
Lemma user_stream_connect_loop_follows (sdk : SignerClient)
    (attempts : list (ConnectOutcome * float)) (ds : LighterAPIUserStreamDataSource.t)
    (auth : LighterAuth.t) :
  let '(c, ds', _, evs) := LighterAPIUserStreamDataSource.connect_loop sdk attempts ds auth in
  let '(c0, b0, evs0) :=
    LighterAPIOrderBookDataSource.connect_loop (map fst attempts)
      (LighterAPIUserStreamDataSource._current_backoff ds) in
  c = c0 /\ LighterAPIUserStreamDataSource._current_backoff ds' = b0 /\ waits evs = waits evs0.
Proof.
  revert ds auth. induction attempts as [|[o now] attempts IH]; intros ds auth.
  - cbn. auto.
  - cbn [map fst LighterAPIUserStreamDataSource.connect_loop LighterAPIOrderBookDataSource.connect_loop].
    destruct o as [|[|cls msg]]; [cbn; auto..|].
    destruct (Reconnect.is_rate_limit_error msg); [|cbn; auto].
    unfold LighterAPIUserStreamDataSource._get_auth_token.
    destruct (LighterAuth.create_auth_token sdk 3600 now auth) as [token auth2].
    specialize (IH (LighterAPIUserStreamDataSource.Build (Some token)
                      (Reconnect.next_backoff (LighterAPIUserStreamDataSource._current_backoff ds)))
                   auth2).
    cbn [LighterAPIUserStreamDataSource._current_backoff] in *.
    destruct (LighterAPIUserStreamDataSource.connect_loop sdk attempts _ auth2)
      as [[[c ds3] auth3] evs].
    destruct (LighterAPIOrderBookDataSource.connect_loop (map fst attempts) _) as [[c0 b0] evs0].
    destruct IH as (Hc & Hb & Hw).
    split; [exact Hc|]. split; [exact Hb|].
    unfold waits in *. cbn. now rewrite Hw.
Qed.

(** From a stored backoff of the sequence 1, 2, 4, ..., 60 the loop only
    sleeps for, and only stores, values of that sequence, whatever the
    transport answers. *)
Lemma order_book_connect_loop_invariant (attempts : list ConnectOutcome) (k : nat) :
  let '(_, b', evs) := LighterAPIOrderBookDataSource.connect_loop attempts (expected_wait k) in
  (exists k' : nat, b' = expected_wait k')
  /\ Forall (fun w => exists j : nat, w = expected_wait j) (waits evs).
Proof.
  revert k. induction attempts as [|o attempts IH]; intros k.
  - cbn. split; [now exists k|constructor].
  - cbn [LighterAPIOrderBookDataSource.connect_loop].
    destruct o as [|[|cls msg]].
    + split; [now exists 0%nat|constructor].
    + split; [now exists k|constructor].
    + destruct (Reconnect.is_rate_limit_error msg).
      * rewrite next_backoff_expected. specialize (IH (S k)).
        destruct (LighterAPIOrderBookDataSource.connect_loop attempts _) as [[c b'] evs].
        destruct IH as [Hb Hw]. split; [exact Hb|].
        unfold waits in *. cbn. constructor; [now exists k|exact Hw].
      * split; [now exists k|constructor].
Qed.

(** C3.  From the initial backoff, a run of rate-limit failures followed by
    a successful connect sleeps 1, 2, 4, 8, 16, 32, 60, 60, ... seconds (1, 2
    and 4 for three failures; never more than 60) and leaves the stored
    backoff at the initial 1 second; from any stored backoff [b] the first
    sleep is [b] itself and a successful connect stores the initial backoff
    again.  Both data sources behave so. *)
Theorem backoff_growth_and_reset (sdk : SignerClient)
    (uattempts : list (ConnectOutcome * float)) (now0 t : float) (b : float)
    (pairs : list string) (ds : LighterAPIUserStreamDataSource.t) (auth : LighterAuth.t) :
  forallb is_retried (map fst uattempts) = true ->
  let attempts := map fst uattempts in
  let n := length uattempts in
  (let '(c, ob, evs) :=
     LighterAPIOrderBookDataSource._connected_websocket_assistant (attempts ++ [ConnectOk])
       (LighterAPIOrderBookDataSource.init pairs) in
   c = Returned
   /\ waits evs = map expected_wait (seq 0 n)
   /\ LighterAPIOrderBookDataSource._current_backoff ob = CONSTANTS.INITIAL_BACKOFF)
  /\ (let '(c, us, _, evs) :=
        LighterAPIUserStreamDataSource._connected_websocket_assistant sdk now0
          (uattempts ++ [(ConnectOk, t)]) LighterAPIUserStreamDataSource.init auth in
      c = Returned
      /\ waits evs = map expected_wait (seq 0 n)
      /\ LighterAPIUserStreamDataSource._current_backoff us = CONSTANTS.INITIAL_BACKOFF)
  /\ (n = 3%nat -> map expected_wait (seq 0 n) = [1; 2; 4]%float)
  /\ (forall k : nat, PrimFloat.leb (expected_wait k) CONSTANTS.MAX_BACKOFF = true)
  /\ (let '(c, b', evs) :=
        LighterAPIOrderBookDataSource.connect_loop (attempts ++ [ConnectOk]) b in
      c = Returned
      /\ waits evs = backoff_waits n b
      /\ b' = CONSTANTS.INITIAL_BACKOFF)
  /\ (let '(c, us, _, evs) :=
        LighterAPIUserStreamDataSource.connect_loop sdk (uattempts ++ [(ConnectOk, t)]) ds auth in
      c = Returned
      /\ waits evs = backoff_waits n (LighterAPIUserStreamDataSource._current_backoff ds)
      /\ LighterAPIUserStreamDataSource._current_backoff us = CONSTANTS.INITIAL_BACKOFF).
Proof.
  intros Hall attempts n.
  assert (Hn : length attempts = n) by apply length_map.
  assert (Hob : forall b0 : float,
             let '(c, b', evs) :=
               LighterAPIOrderBookDataSource.connect_loop (attempts ++ [ConnectOk]) b0 in
             c = Returned /\ waits evs = backoff_waits n b0
             /\ b' = CONSTANTS.INITIAL_BACKOFF).
  { intros b0.
    destruct (order_book_connect_loop_retries attempts [ConnectOk] b0 Hall)
      as (evs & Hw & _ & Heq).
    rewrite Heq. cbn. repeat split.
    unfold waits in *. rewrite omap_app, Hw, Hn. cbn. apply app_nil_r. }
  assert (Hus : forall (ds0 : LighterAPIUserStreamDataSource.t) (auth0 : LighterAuth.t),
             let '(c, us, _, evs) :=
               LighterAPIUserStreamDataSource.connect_loop sdk (uattempts ++ [(ConnectOk, t)])
                 ds0 auth0 in
             c = Returned
             /\ waits evs = backoff_waits n (LighterAPIUserStreamDataSource._current_backoff ds0)
             /\ LighterAPIUserStreamDataSource._current_backoff us = CONSTANTS.INITIAL_BACKOFF).
  { intros ds0 auth0.
    pose proof (user_stream_connect_loop_follows sdk (uattempts ++ [(ConnectOk, t)])
                  ds0 auth0) as Hf.
    rewrite map_app in Hf. cbn [map fst] in Hf. fold attempts in Hf.
    specialize (Hob (LighterAPIUserStreamDataSource._current_backoff ds0)).
    destruct (LighterAPIUserStreamDataSource.connect_loop _ _ _ _) as [[[c us] auth'] evs].
    destruct (LighterAPIOrderBookDataSource.connect_loop _ _) as [[c0 b0] evs0].
    destruct Hf as (-> & -> & ->). exact Hob. }
  split; [|split; [|split; [|split; [|split]]]].
  - unfold LighterAPIOrderBookDataSource._connected_websocket_assistant, LighterAPIOrderBookDataSource.init.
    cbn [LighterAPIOrderBookDataSource._current_backoff].
    specialize (Hob CONSTANTS.INITIAL_BACKOFF).
    destruct (LighterAPIOrderBookDataSource.connect_loop _ _) as [[c b'] evs].
    cbn [LighterAPIOrderBookDataSource._current_backoff].
    destruct Hob as (-> & -> & ->). repeat split.
    apply (backoff_waits_expected n 0).
  - unfold LighterAPIUserStreamDataSource._connected_websocket_assistant,
      LighterAPIUserStreamDataSource._get_auth_token.
    destruct (LighterAuth.create_auth_token sdk 3600 now0 auth) as [token auth1].
    specialize (Hus (LighterAPIUserStreamDataSource.Build (Some token)
                       (LighterAPIUserStreamDataSource._current_backoff LighterAPIUserStreamDataSource.init))
                    auth1).
    destruct (LighterAPIUserStreamDataSource.connect_loop _ _ _ _) as [[[c us] auth'] evs].
    destruct Hus as (-> & -> & ->). repeat split.
    apply (backoff_waits_expected n 0).
  - intros ->. reflexivity.
  - apply expected_wait_capped.
  - apply Hob.
  - apply Hus.
Qed.

Lemma backoff_growth_and_reset_witness :
  let failures :=
    [(ConnectRaises (PyExc "WSServerHandshakeError" "429, message='Invalid response status'"), 10%float);
     (ConnectRaises (PyExc "ConnectionError" "Too Many Requests"), 11%float);
     (ConnectRaises (PyExc "IOError" "Rate limit exceeded"), 13%float)] in
  let '(c, ob, evs) :=
    LighterAPIOrderBookDataSource._connected_websocket_assistant
      (map fst failures ++ [ConnectOk]) (LighterAPIOrderBookDataSource.init ["ETH-USDC"%string]) in
  c = Returned
  /\ waits evs = [1; 2; 4]%float
  /\ LighterAPIOrderBookDataSource._current_backoff ob = 1%float.
Proof.
  intros failures.
  exact (proj1 (backoff_growth_and_reset Scenario.sdk failures 0%float 17%float 1%float
                  ["ETH-USDC"%string] LighterAPIUserStreamDataSource.init LighterAuth.init eq_refl)).
Defined.



(** ** The subscription ceiling *)

Lemma sent_cons_send (m : json) (evs : list Event) :
  sent (WsSend m :: evs) = m :: sent evs.
Proof. reflexivity. Qed.

Lemma sent_cons_log (r : LogRecord) (evs : list Event) :
  sent (Log r :: evs) = sent evs.
Proof. reflexivity. Qed.

(** What the [for] loop of [_subscribe_channels] does to the running
    count, whatever the connector and the transport answer. *)
Lemma subscribe_loop_count (market_id_of : string -> json + exn)
    (send : nat -> option exn) (pairs : list string) (k : nat) (count : Z) :
  let '(r, count', evs) :=
    LighterAPIOrderBookDataSource.subscribe_loop market_id_of send pairs k count in
  count' = count + Z.of_nat (length (sent evs))
  /\ count' <= Z.max count (CONSTANTS.WS_MAX_SUBSCRIPTIONS + 1)
  /\ (Z.even count = true -> count' <= Z.max count CONSTANTS.WS_MAX_SUBSCRIPTIONS)
  /\ (Z.even count = true -> r = None -> Z.even count' = true)
  /\ (CONSTANTS.WS_MAX_SUBSCRIPTIONS <= count ->
      r = None /\ evs = match pairs with [] => [] | _ :: _ => [Log WarnSubscriptionLimit] end).
Proof.
  unfold CONSTANTS.WS_MAX_SUBSCRIPTIONS.
  revert k count. induction pairs as [|p pairs IH]; intros k count.
  - cbn. repeat split; auto; lia.
  - cbn [LighterAPIOrderBookDataSource.subscribe_loop]. unfold CONSTANTS.WS_MAX_SUBSCRIPTIONS.
    destruct (Z.leb_spec 1000 count) as [Hge|Hlt].
    + cbn. repeat split; auto; lia.
    + assert (Hev : Z.even count = true -> count <= 998).
      { intros He. apply Z.even_spec in He as [m ->]. lia. }
      destruct (market_id_of p) as [market_id|e].
      * destruct (send k) as [e|].
        { cbn. repeat split; try lia; try discriminate. }
        destruct (send (S k)) as [e|].
        { cbn. repeat split; try lia; try discriminate. }
        specialize (IH (S (S k)) (count + 1 + 1)).
        destruct (LighterAPIOrderBookDataSource.subscribe_loop _ _ pairs _ _) as [[r c'] evs].
        destruct IH as (Hc & Hmax & Heven & Hpar & _).
        assert (He2 : Z.even count = true -> Z.even (count + 1 + 1) = true).
        { intros He. replace (count + 1 + 1) with (count + 2) by lia.
          now rewrite Z.even_add, He. }
        rewrite !sent_cons_send, sent_cons_log. cbn [length].
        rewrite !Nat2Z.inj_succ.
        split; [lia|]. split; [lia|]. split; [|split].
        -- intros He. specialize (Hev He). specialize (Heven (He2 He)). lia.
        -- intros He Hr. exact (Hpar (He2 He) Hr).
        -- lia.
      * cbn. repeat split; try lia; try discriminate.
Qed.



(** ** Inbound order updates *)

(** C8 (as stated, refuted).  Order 77 is tracked under client id "HBOT-1".
    A pushed update that names exchange order 77 and carries no client id is
    not matched to it by the perpetual connector: nothing reaches the order
    tracker, and nothing is logged. *)
Lemma order_update_without_client_id_is_dropped :
  ~ (forall (py_str : json -> string) (ORDER_STATUS_MAP : gmap string OrderState)
            (current_timestamp : float) (orders : list (string * InFlightOrder.t))
            (order_msg : gmap string json) (order_id : json) (o : InFlightOrder.t),
        order_msg !! "client_order_id"%string = None ->
        order_msg !! "order_id"%string = Some order_id ->
        In o (OrderMsg.orders_with_exchange_id orders (py_str order_id)) ->
        let evs := snd (LighterPerpetualDerivative._process_order_message py_str ORDER_STATUS_MAP
                          current_timestamp orders order_msg) in
        tracker_calls evs <> [] \/ exists r : LogRecord, In (Log r) evs).
Proof.
  intros H.
  destruct (H Scenario.py_str ∅ 0%float Scenario.tracked Scenario.push_without_client_id
              (JStr "77") Scenario.order77 eq_refl eq_refl (or_introl eq_refl))
    as [Hcalls|[r Hlog]].
  - apply Hcalls. reflexivity.
  - destruct Hlog.
Qed.

(** The spot connector drops the same update too: it looks orders up by
    [client_order_index] only. *)
Example exchange_drops_update_without_client_index :
  LighterExchange._process_order_message Scenario.py_str Scenario.tracked
    (<["order_index" := JStr "77"]> {[ "status" := JStr "filled" ]})
  = [Log DebugOrderNotTracked].
Proof. reflexivity. Qed.

(** Closes a goal whose premise claims a tracker call where the run made
    none. *)
Ltac no_tracker_call :=
  let H := fresh "Hcalls" in intros H; exfalso; apply H; reflexivity.

(** C8 (amended).  The perpetual connector looks the order up by
    [client_order_id] only: an update whose client id is absent (or empty) is
    dropped at once, without a lookup by exchange order id and without a log
    line; an update whose client id is not tracked is logged at debug level
    and dropped.  The spot connector looks the order up by
    [client_order_index] only, and logs and drops an update that matches no
    tracked order.  In each of these cases the function returns normally and
    makes no call on the order tracker; a tracker call is only ever made for
    an order found by that key. *)
Theorem unknown_order_update_is_noop (py_str : json -> string)
    (ORDER_STATUS_MAP : gmap string OrderState) (current_timestamp : float)
    (orders : list (string * InFlightOrder.t)) (order_msg : gmap string json) :
  let perp := LighterPerpetualDerivative._process_order_message py_str ORDER_STATUS_MAP
                current_timestamp orders order_msg in
  let spot := LighterExchange._process_order_message py_str orders order_msg in
  (Py.truthy (Py.get order_msg "client_order_id") = false -> perp = (Returned, []))
  /\ (forall key : string,
        order_msg !! "client_order_id"%string = Some (JStr key) -> key <> ""%string ->
        OrderMsg.lookup_order orders key = None ->
        perp = (Returned, [Log (DebugUnknownOrder (JStr key))]))
  /\ (tracker_calls (snd perp) <> [] ->
      exists (key : string) (o : InFlightOrder.t),
        order_msg !! "client_order_id"%string = Some (JStr key)
        /\ OrderMsg.lookup_order orders key = Some o
        /\ In (UpdateExchangeOrderId (InFlightOrder.client_order_id o)
                 (py_str (Py.get order_msg "order_id"))) (snd perp))
  /\ (OrderMsg.find_by_client_order_index orders (Py.get order_msg "client_order_index")
      = None ->
      spot = [Log DebugOrderNotTracked])
  /\ (tracker_calls spot <> [] ->
      exists (o : InFlightOrder.t) (u : OrderUpdate),
        OrderMsg.find_by_client_order_index orders (Py.get order_msg "client_order_index")
        = Some o
        /\ spot = [ProcessOrderUpdate u]
        /\ upd_client_order_id u = JStr (InFlightOrder.client_order_id o)).
Proof.
  cbn zeta. unfold LighterPerpetualDerivative._process_order_message,
    LighterExchange._process_order_message.
  split; [|split; [|split; [|split]]].
  - now intros ->.
  - intros key Hkey Hne Hnone.
    assert (Hget : Py.get order_msg "client_order_id" = JStr key).
    { unfold Py.get. now rewrite Hkey. }
    rewrite !Hget. apply String.eqb_neq in Hne.
    unfold Py.truthy, OrderMsg.hashable. rewrite Hne. cbn [negb].
    now rewrite Hnone.
  - destruct (order_msg !! "client_order_id"%string) as [v|] eqn:Hv.
    2: { unfold Py.get at 1. rewrite Hv. no_tracker_call. }
    assert (Hget : Py.get order_msg "client_order_id" = v).
    { unfold Py.get. now rewrite Hv. }
    rewrite !Hget.
    destruct (negb (Py.truthy v)); [no_tracker_call|].
    destruct (negb (OrderMsg.hashable v)); [no_tracker_call|].
    destruct v as [|b|n|f|key|items|fields]; try no_tracker_call.
    destruct (OrderMsg.lookup_order orders key) as [o|] eqn:Ho; [|no_tracker_call].
    unfold Py.get.
    destruct (order_msg !! "status"%string) as [status|]; [|no_tracker_call].
    destruct (order_msg !! "order_id"%string) as [order_id|]; [|no_tracker_call].
    intros _. exists key, o. split; [reflexivity|]. split; [exact Ho|].
    destruct (negb (OrderMsg.hashable status)); cbn [snd]; now left.
  - now intros ->.
  - destruct (OrderMsg.find_by_client_order_index _ _) as [o|]; [|no_tracker_call].
    destruct (negb (OrderMsg.hashable _)); [no_tracker_call|].
    destruct (OrderMsg.div_1000 _) as [ts|]; [|no_tracker_call].
    intros _. eexists o, _. split; [reflexivity|]. split; reflexivity.
Qed.

Lemma unknown_order_update_is_noop_witness :
  LighterPerpetualDerivative._process_order_message Scenario.py_str ∅ 0%float Scenario.tracked
    Scenario.push_without_client_id
  = (Returned, [])
  /\ LighterPerpetualDerivative._process_order_message Scenario.py_str ∅ 0%float Scenario.tracked
       Scenario.push_unknown
     = (Returned, [Log (DebugUnknownOrder (JStr "HBOT-9"))])
  /\ LighterExchange._process_order_message Scenario.py_str Scenario.tracked
       Scenario.push_unknown
     = [Log DebugOrderNotTracked].
Proof.
  split; [|split].
  - apply (proj1 (unknown_order_update_is_noop Scenario.py_str ∅ 0%float
             Scenario.tracked Scenario.push_without_client_id) eq_refl).
  - apply (proj1 (proj2 (unknown_order_update_is_noop Scenario.py_str ∅ 0%float
             Scenario.tracked Scenario.push_unknown)) "HBOT-9"%string eq_refl
             ltac:(discriminate) eq_refl).
  - apply (proj1 (proj2 (proj2 (proj2 (unknown_order_update_is_noop Scenario.py_str ∅
             0%float Scenario.tracked Scenario.push_unknown)))) eq_refl).
Defined.

(* ===================================================================== *)
(** * Part III: further properties of the connector *)
(* ===================================================================== *)

(** ** Nonces under any mix of [next] and [set] *)

Lemma nonce_run_bounds (ops : list NonceOp) (m : _NonceManager.t) :
  let '(out, m') := nonce_run ops m in
  _NonceManager._last m <= _NonceManager._last m'
  /\ Forall (fun v => _NonceManager._last m < v <= _NonceManager._last m') out
  /\ StronglySorted Z.lt out.
Proof.
  revert m. induction ops as [|op ops IH]; intros m.
  - cbn. split; [lia|]. split; constructor.
  - destruct op as [|value]; cbn [nonce_run _NonceManager.next].
    + specialize (IH (_NonceManager.Build (_NonceManager._last m + 1))).
      destruct (nonce_run ops _) as [vs m2]. cbn [_NonceManager._last] in *.
      destruct IH as (Hle & Hall & Hsorted).
      split; [lia|]. split.
      * constructor; [lia|]. eapply List.Forall_impl; [|exact Hall]. cbn. intros; lia.
      * constructor; [exact Hsorted|].
        eapply List.Forall_impl; [|exact Hall]. cbn. intros; lia.
    + specialize (IH (_NonceManager.set value m)).
      destruct (nonce_run ops _) as [vs m2].
      destruct IH as (Hle & Hall & Hsorted).
      assert (Hset : _NonceManager._last m <= _NonceManager._last (_NonceManager.set value m)
                     /\ value <= _NonceManager._last (_NonceManager.set value m)).
      { unfold _NonceManager.set. destruct (Z.ltb_spec (_NonceManager._last m) value); cbn; lia. }
      split; [lia|]. split; [|exact Hsorted].
      eapply List.Forall_impl; [|exact Hall]. cbn. intros; lia.
Qed.

Lemma nonce_run_app (ops1 ops2 : list NonceOp) (m : _NonceManager.t) :
  nonce_run (ops1 ++ ops2) m
  = (fst (nonce_run ops1 m) ++ fst (nonce_run ops2 (snd (nonce_run ops1 m))),
     snd (nonce_run ops2 (snd (nonce_run ops1 m)))).
Proof.
  revert m. induction ops1 as [|op ops1 IH]; intros m.
  - cbn. now destruct (nonce_run ops2 m).
  - destruct op as [|value]; cbn [app nonce_run _NonceManager.next].
    + rewrite IH. now destruct (nonce_run ops1 _).
    + apply IH.
Qed.

(** X1.  Whatever mix of [next] and [set] calls is made on a nonce manager,
    the values [next] returns are strictly increasing, all above the
    starting counter, and every [next] made after a [set v] returns more
    than [v]. *)
Theorem nonce_strictly_increasing (ops1 ops2 : list NonceOp) (v : Z)
    (m : _NonceManager.t) :
  let out := fst (nonce_run (ops1 ++ OpSet v :: ops2) m) in
  let later := fst (nonce_run ops2 (snd (nonce_run (ops1 ++ [OpSet v]) m))) in
  StronglySorted Z.lt out
  /\ Forall (fun x => _NonceManager._last m < x) out
  /\ out = fst (nonce_run ops1 m) ++ later
  /\ Forall (fun x => v < x) later.
Proof.
  cbn zeta.
  pose proof (nonce_run_bounds (ops1 ++ OpSet v :: ops2) m) as H.
  destruct (nonce_run (ops1 ++ OpSet v :: ops2) m) as [out m'] eqn:E.
  destruct H as (_ & Hall & Hsorted). cbn [fst].
  split; [exact Hsorted|]. split.
  { eapply List.Forall_impl; [|exact Hall]. cbn. intros; lia. }
  assert (Hout : out = fst (nonce_run ops1 m)
                       ++ fst (nonce_run ops2 (snd (nonce_run (ops1 ++ [OpSet v]) m)))).
  { change out with (fst (out, m')). rewrite <- E.
    rewrite (nonce_run_app ops1 (OpSet v :: ops2)). cbn [fst nonce_run].
    rewrite (nonce_run_app ops1 [OpSet v]). reflexivity. }
  split; [exact Hout|].
  rewrite (nonce_run_app ops1 [OpSet v]).
  change (snd (fst (nonce_run ops1 m) ++ fst (nonce_run [OpSet v] (snd (nonce_run ops1 m))),
               snd (nonce_run [OpSet v] (snd (nonce_run ops1 m)))))
    with (_NonceManager.set v (snd (nonce_run ops1 m))).
  set (m1 := _NonceManager.set v (snd (nonce_run ops1 m))).
  assert (Hv : v <= _NonceManager._last m1).
  { subst m1. unfold _NonceManager.set.
    destruct (Z.ltb_spec (_NonceManager._last (snd (nonce_run ops1 m))) v); cbn; lia. }
  pose proof (nonce_run_bounds ops2 m1) as H2.
  destruct (nonce_run ops2 m1) as [later m2]. cbn [fst].
  destruct H2 as (_ & Hall2 & _).
  eapply List.Forall_impl; [|exact Hall2]. cbn. intros; lia.
Qed.

Lemma nonce_set_max (v : Z) (m : _NonceManager.t) :
  _NonceManager.set v m = _NonceManager.Build (Z.max v (_NonceManager._last m)).
Proof.
  destruct m as [c]. unfold _NonceManager.set. cbn [_NonceManager._last].
  destruct (Z.ltb_spec c v); f_equal; lia.
Qed.

(** X2.  [set] calls merge: two of them in either order leave the counter
    where one [set] of the larger value leaves it, a repeated [set] changes
    nothing, and no [set] ever lowers the counter. *)
Theorem nonce_set_merges (v w : Z) (m : _NonceManager.t) :
  _NonceManager.set v (_NonceManager.set w m) = _NonceManager.set (Z.max v w) m
  /\ _NonceManager.set v (_NonceManager.set w m)
     = _NonceManager.set w (_NonceManager.set v m)
  /\ _NonceManager.set v (_NonceManager.set v m) = _NonceManager.set v m
  /\ _NonceManager._last m <= _NonceManager._last (_NonceManager.set v m).
Proof.
  rewrite !nonce_set_max. cbn [_NonceManager._last].
  repeat split; try (f_equal; lia).
Qed.

(** ** Requests on their way out *)

(** X3.  [rest_authenticate] touches the auth object only for a POST: any
    other method leaves the nonce, the cache and the SDK alone and the body
    as it came, while every POST draws exactly one nonce and always leaves
    with a body, even when it came without one.  Method and URL are never
    changed. *)
Theorem rest_authenticate_draws_nonce_only_on_post (sdk : SignerClient)
    (now : float) (request : RESTRequest (gmap string json)) (a : LighterAuth.t) :
  let r := LighterAuth.rest_authenticate sdk now request a in
  rest_method (fst r) = rest_method request
  /\ rest_url (fst r) = rest_url request
  /\ (rest_method request <> POST ->
      snd r = a /\ rest_data (fst r) = JObj <$> rest_data request)
  /\ (rest_method request = POST ->
      _NonceManager._last (LighterAuth._nonce (snd r))
      = _NonceManager._last (LighterAuth._nonce a) + 1
      /\ rest_data (fst r)
         = Some (fst (LighterAuth.add_auth_to_params_post sdk (rest_data request)
                        (rest_url request) a))).
Proof.
  cbn zeta. unfold LighterAuth.rest_authenticate.
  pose proof (add_auth_to_params_post_state sdk (rest_data request)
                (rest_url request) a) as (Hn & _).
  destruct (LighterAuth.add_auth_to_params_post _ _ _ _) as [payload a1].
  destruct (rest_method request); cbn [fst snd rest_method rest_url rest_data];
    repeat split; try congruence; exact Hn.
Qed.

Lemma rest_authenticate_draws_nonce_only_on_post_witness :
  snd (LighterAuth.rest_authenticate Scenario.sdk 100%float Scenario.get_account
         Scenario.auth_cached)
  = Scenario.auth_cached
  /\ _NonceManager._last
       (LighterAuth._nonce
          (snd (LighterAuth.rest_authenticate Scenario.sdk 100%float
                  (Build_RESTRequest POST Scenario.account_url None None)
                  Scenario.auth_cached)))
     = 0 + 1.
Proof.
  split.
  - apply (proj1 (proj2 (proj2 (rest_authenticate_draws_nonce_only_on_post
             Scenario.sdk 100%float Scenario.get_account Scenario.auth_cached)))
             ltac:(discriminate)).
  - apply (proj2 (proj2 (proj2 (rest_authenticate_draws_nonce_only_on_post
             Scenario.sdk 100%float
             (Build_RESTRequest POST Scenario.account_url None None)
             Scenario.auth_cached))) eq_refl).
Defined.

(** X4.  After [pre_process] and [rest_authenticate] a request carries
    Content-Type and Accept "application/json" (whatever the caller had
    put there), carries "Bearer <token>" as Authorization when the cached
    token is usable and the caller's own Authorization header otherwise, and
    keeps every other header; the two steps give the same headers in either
    order. *)
Theorem pre_process_and_authenticate_headers (sdk : SignerClient) (now : float)
    (request : RESTRequest (gmap string json)) (a : LighterAuth.t) :
  let original : gmap string string := default ∅ (rest_headers request) in
  let out := fst (LighterAuth.rest_authenticate sdk now (web_utils.pre_process request) a) in
  exists h : gmap string string,
    rest_headers out = Some h
    /\ h !! "Content-Type"%string = Some "application/json"%string
    /\ h !! "Accept"%string = Some "application/json"%string
    /\ h !! "Authorization"%string
       = (if LighterAuth.token_usable now a
          then Some ("Bearer " ++ default "" (LighterAuth._auth_token a))%string
          else original !! "Authorization"%string)
    /\ (forall k : string,
          k <> "Content-Type"%string -> k <> "Accept"%string ->
          k <> "Authorization"%string -> h !! k = original !! k)
    /\ rest_headers (web_utils.pre_process
                       (fst (LighterAuth.rest_authenticate sdk now request a)))
       = Some h.
Proof.
  cbn zeta.
  assert (Hh : forall req : RESTRequest (gmap string json),
             rest_headers (fst (LighterAuth.rest_authenticate sdk now req a))
             = LighterAuth.attach_token now a (rest_headers req)).
  { intros req. unfold LighterAuth.rest_authenticate.
    destruct (rest_method req); try reflexivity.
    destruct (LighterAuth.add_auth_to_params_post _ _ _ _); reflexivity. }
  rewrite Hh. unfold web_utils.pre_process at 2. cbn [rest_headers].
  rewrite Hh. unfold web_utils.pre_process, LighterAuth.attach_token. cbn [rest_headers].
  set (original := default ∅ (rest_headers request)).
  destruct (LighterAuth.token_usable now a); eexists; (split; [reflexivity|]);
    simpl (default _ (Some _)).
  - split; [by simplify_map_eq|]. split; [by simplify_map_eq|].
    split; [by simplify_map_eq|]. split; [intros k H1 H2 H3; by simplify_map_eq|].
    f_equal. apply map_eq. intros k.
    destruct (decide (k = "Authorization"%string)) as [->|H3]; [by simplify_map_eq|].
    destruct (decide (k = "Accept"%string)) as [->|H2]; [by simplify_map_eq|].
    destruct (decide (k = "Content-Type"%string)) as [->|H1]; by simplify_map_eq.
  - split; [by simplify_map_eq|]. split; [by simplify_map_eq|].
    split; [by simplify_map_eq|]. split; [intros k H1 H2 H3; by simplify_map_eq|].
    reflexivity.
Qed.

Lemma pre_process_and_authenticate_headers_witness :
  rest_headers (fst (LighterAuth.rest_authenticate Scenario.sdk 100%float
                       (web_utils.pre_process Scenario.get_account) Scenario.auth_cached))
  ≫= (fun h => h !! "X-Custom"%string)
  = None.
Proof.
  destruct (pre_process_and_authenticate_headers Scenario.sdk 100%float
              Scenario.get_account Scenario.auth_cached) as (h & -> & _ & _ & _ & Hk & _).
  cbn. rewrite Hk; [reflexivity|discriminate..].
Defined.

(** ** URLs *)

Lemma contains_sendTx_rest_url (path_url domain : string) :
  PyStr.contains "/sendTx" (web_utils.rest_url path_url domain)
  = PyStr.contains "/sendTx" path_url.
Proof.
  unfold web_utils.rest_url, lighter_constants.BASE_URL, lighter_constants.TESTNET_BASE_URL.
  destruct (String.eqb domain "lighter"); reflexivity.
Qed.

(** X5.  The signing path taken by [add_auth_to_params_post] depends on the
    path of the URL only: for a URL built by [rest_url] the result is the
    one for the bare path, whatever the domain.  Every domain other than
    "lighter" is sent to the testnet hosts. *)
Theorem signing_ignores_domain (sdk : SignerClient)
    (params : option (gmap string json)) (path_url domain : string)
    (a : LighterAuth.t) :
  LighterAuth.add_auth_to_params_post sdk params (web_utils.rest_url path_url domain) a
  = LighterAuth.add_auth_to_params_post sdk params path_url a
  /\ (domain <> "lighter"%string ->
      web_utils.rest_url path_url domain
      = (lighter_constants.TESTNET_BASE_URL ++ path_url)%string
      /\ web_utils.wss_url domain = lighter_constants.TESTNET_WS_URL).
Proof.
  split.
  - rewrite !add_auth_to_params_post_branches. cbn zeta.
    now rewrite contains_sendTx_rest_url.
  - intros Hd. unfold web_utils.rest_url, web_utils.wss_url.
    apply String.eqb_neq in Hd. now rewrite Hd.
Qed.

Lemma signing_ignores_domain_witness :
  web_utils.rest_url CONSTANTS.CREATE_ORDER_URL "lighter_perpetual"
  = "https://testnet.zklighter.elliot.ai/api/v1/sendTx"%string.
Proof.
  apply (proj1 (proj2 (signing_ignores_domain Scenario.sdk None
           CONSTANTS.CREATE_ORDER_URL "lighter_perpetual" LighterAuth.init)
           ltac:(discriminate))).
Defined.

(** ** Lower-casing and substrings *)





(** ** Order types and times in force *)



(** ** Routing of inbound messages *)



(** X8.  [_process_event_message] never queues a message that carries an
    error: an error object raises the "WSS_ERROR" [IOError] built from its
    "message" (or from the whole object when it has none), and any other
    error value (a bare string, say) raises [AttributeError] instead.
    Without an error (absent or null) the message is queued exactly when its
    channel is one of the listed strings; every other message is dropped
    silently. *)
Theorem event_message_filter (channels : list string)
    (event_message : gmap string json) :
  let out := UserStreamMessages._process_event_message channels event_message in
  (Py.get event_message "error" <> JNull -> out <> UserStreamMessages.Queued
                                           /\ out <> UserStreamMessages.Dropped)
  /\ (forall error : gmap string json,
        event_message !! "error"%string = Some (JObj error) ->
        out = UserStreamMessages.RaisedWssError
                (default (JObj error) (error !! "message"%string)))
  /\ (forall text : string,
        event_message !! "error"%string = Some (JStr text) ->
        out = UserStreamMessages.RaisedAttributeError)
  /\ (Py.get event_message "error" = JNull ->
      (out = UserStreamMessages.Queued
       <-> exists c : string,
             In c channels /\ event_message !! "channel"%string = Some (JStr c))
      /\ (out = UserStreamMessages.Queued \/ out = UserStreamMessages.Dropped)).
Proof.
  cbn zeta. unfold UserStreamMessages._process_event_message.
  split; [|split; [|split]].
  - destruct (Py.get event_message "error"); try congruence; split; discriminate.
  - intros error He. unfold Py.get at 1. rewrite He. reflexivity.
  - intros text He. unfold Py.get at 1. rewrite He. reflexivity.
  - intros ->. unfold PyOp.in_strs, Py.get.
    destruct (event_message !! "channel"%string) as [v|]; simpl (default _ _).
    + destruct v as [|b|n|f|s|items|fields];
        try (split; [split; [discriminate|intros (c & _ & Hc); discriminate Hc]|now right]).
      destruct (existsb (String.eqb s) channels) eqn:E.
      * split; [|now left]. split; [intros _|reflexivity].
        apply existsb_exists in E as (c & Hin & Hc).
        apply String.eqb_eq in Hc. subst c. now exists s.
      * split; [|now right]. split; [discriminate|].
        intros (c & Hin & Hc). injection Hc as ->.
        assert (existsb (String.eqb c) channels = true) as E'; [|congruence].
        apply existsb_exists. exists c. split; [exact Hin|apply String.eqb_refl].
    + split; [|now right]. split; [discriminate|intros (c & _ & Hc); discriminate Hc].
Qed.

Lemma event_message_filter_witness :
  UserStreamMessages._process_event_message UserStreamMessages.spot_channels
    Scenario2.error_text_message
  = UserStreamMessages.RaisedAttributeError.
Proof.
  apply (proj1 (proj2 (proj2 (event_message_filter UserStreamMessages.spot_channels
           Scenario2.error_text_message))) "rate limited"%string eq_refl).
Defined.

(** ** The private stream: subscriptions and heartbeat *)

(** X9.  [_ping_thread] never raises: it sends one ping after each 30 second
    sleep until the first cancelled sleep or failed send, then returns for
    good (a cancellation is swallowed, not propagated), and nothing is sent
    after that point. *)
Theorem heartbeat_stops_at_first_failure (steps : list UserStreamMessages.PingStep) :
  let '(c, evs) := UserStreamMessages._ping_thread steps in
  (c = Returned \/ c = Blocked)
  /\ (c = Blocked <-> forallb is_send_ok steps = true)
  /\ UserStreamMessages.stream_sent evs
     = repeat UserStreamMessages.ping_payload (leading_pings steps)
  /\ (forall extra : list UserStreamMessages.PingStep,
        c = Returned ->
        UserStreamMessages._ping_thread (steps ++ extra) = (c, evs)).
Proof.
  induction steps as [|step steps IH]; cbn [UserStreamMessages._ping_thread].
  - cbn. repeat split; auto; discriminate.
  - destruct step as [| |[|cls msg]].
    + cbn. repeat split; auto; discriminate.
    + destruct (UserStreamMessages._ping_thread steps) as [c evs].
      destruct IH as (Hc & Hb & Hs & Hx).
      split; [exact Hc|]. split; [exact Hb|]. split.
      * unfold UserStreamMessages.stream_sent in *. cbn. now rewrite Hs.
      * intros extra Hr. cbn [app UserStreamMessages._ping_thread].
        now rewrite (Hx extra Hr).
    + cbn. repeat split; auto; discriminate.
    + cbn. repeat split; auto; discriminate.
Qed.

Lemma heartbeat_stops_at_first_failure_witness :
  UserStreamMessages._ping_thread
    ([UserStreamMessages.SendOk; UserStreamMessages.SendRaises CancelledError]
     ++ [UserStreamMessages.SendOk])
  = (Returned,
     [UserStreamMessages.StreamSleep 30%float;
      UserStreamMessages.StreamSend UserStreamMessages.ping_payload false;
      UserStreamMessages.StreamSleep 30%float]).
Proof.
  pose proof (heartbeat_stops_at_first_failure
                [UserStreamMessages.SendOk; UserStreamMessages.SendRaises CancelledError])
    as H.
  cbn [UserStreamMessages._ping_thread] in H.
  destruct H as (_ & _ & _ & Hx).
  exact (Hx [UserStreamMessages.SendOk] eq_refl).
Defined.



(** ** The validators of lighter_utils.py *)

Lemma validate_int_none (py_int : string -> option Z) (value : string)
    (min_val max_val : option Z) :
  lighter_utils.validate_int py_int value min_val max_val = None
  <-> exists n : Z,
        py_int value = Some n
        /\ (forall lo : Z, min_val = Some lo -> lo <= n)
        /\ (forall hi : Z, max_val = Some hi -> n <= hi).
Proof.
  unfold lighter_utils.validate_int.
  destruct (py_int value) as [n|]; [|split; [discriminate|intros (n & H & _); discriminate H]].
  destruct min_val as [lo|], max_val as [hi|]; cbn [default].
  all: repeat match goal with
              | |- context [?x <? ?y] => destruct (Z.ltb_spec x y)
              end.
  all: split;
    [ first [discriminate
            | intros _; exists n; split; [reflexivity|];
              split; intros ? [= <-]; lia ]
    | intros (n' & [= <-] & Hlo & Hhi);
      try reflexivity;
      try (specialize (Hlo _ eq_refl); lia);
      try (specialize (Hhi _ eq_refl); lia) ].
Qed.

(** X11.  [validate_int] accepts a string exactly when it parses as an
    integer that lies within the bounds given, both inclusive.
    [validate_api_key_index] only ever returns an integer from 2 to 254, and
    returns it for every such integer, given as a number or as text; a
    boolean, a float and a null are rejected. *)
Theorem api_key_index_is_in_range (py_int : string -> option Z) (v r : json)
    (value : string) (min_val max_val : option Z) :
  (lighter_utils.validate_int py_int value min_val max_val = None
   <-> exists n : Z,
         py_int value = Some n
         /\ (forall lo : Z, min_val = Some lo -> lo <= n)
         /\ (forall hi : Z, max_val = Some hi -> n <= hi))
  /\ (lighter_utils.validate_api_key_index py_int v = inl r ->
      exists n : Z,
        r = JInt n /\ 2 <= n <= 254
        /\ (v = JInt n \/ exists s : string, v = JStr s /\ py_int s = Some n))
  /\ (forall n : Z, 2 <= n <= 254 ->
      lighter_utils.validate_api_key_index py_int (JInt n) = inl (JInt n)
      /\ (forall s : string, py_int s = Some n ->
          lighter_utils.validate_api_key_index py_int (JStr s) = inl (JInt n)))
  /\ (forall (b : bool) (f : float),
        lighter_utils.validate_api_key_index py_int (JBool b)
        = inr "API key index must be between 2 and 254"%string
        /\ lighter_utils.validate_api_key_index py_int (JFloat f)
           = inr "API key index must be between 2 and 254"%string
        /\ lighter_utils.validate_api_key_index py_int JNull
           = inr "API key index must be between 2 and 254"%string).
Proof.
  split; [apply validate_int_none|].
  unfold lighter_utils.validate_api_key_index, lighter_utils.validate_index.
  split; [|split].
  - destruct v as [|b|n|f|s|items|fields]; cbn [lighter_utils.as_int]; try discriminate.
    + destruct b; cbn; discriminate.
    + destruct (Z.ltb_spec n 2), (Z.ltb_spec 254 n); cbn [orb]; try discriminate.
      intros [= <-]. exists n. repeat split; try lia. now left.
    + destruct (lighter_utils.validate_int py_int s (Some 2) (Some 254)); [discriminate|].
      destruct (py_int s) as [n|] eqn:En; [|discriminate].
      cbn [lighter_utils.as_int].
      destruct (Z.ltb_spec n 2), (Z.ltb_spec 254 n); cbn [orb]; try discriminate.
      intros [= <-]. exists n. repeat split; try lia. right. now exists s.
  - intros n Hn. split.
    + cbn [lighter_utils.as_int].
      destruct (Z.ltb_spec n 2), (Z.ltb_spec 254 n); cbn [orb]; try lia. reflexivity.
    + intros s Hs.
      assert (Hv : lighter_utils.validate_int py_int s (Some 2) (Some 254) = None).
      { apply validate_int_none. exists n. split; [exact Hs|].
        split; intros ? [= <-]; lia. }
      rewrite Hv, Hs. cbn [lighter_utils.as_int].
      destruct (Z.ltb_spec n 2), (Z.ltb_spec 254 n); cbn [orb]; try lia. reflexivity.
  - intros b f. repeat split; try reflexivity. now destruct b.
Qed.

Lemma api_key_index_is_in_range_witness :
  lighter_utils.validate_api_key_index (fun _ => Some 7) (JStr "7") = inl (JInt 7).
Proof.
  apply (proj2 (proj1 (proj2 (proj2 (api_key_index_is_in_range (fun _ => Some 7)
           JNull JNull "7" None None))) 7 ltac:(lia)) "7"%string eq_refl).
Defined.

(** X12.  [validate_account_index] returns every integer from 0 upwards,
    given as a number or as text, and nothing below 0; what it returns is an
    integer or a boolean, because a boolean is an [int] for [isinstance]:
    [True] and [False] pass and come back as they are. *)
Theorem account_index_accepts_booleans (py_int : string -> option Z) (v r : json) :
  (lighter_utils.validate_account_index py_int v = inl r ->
   exists n : Z, lighter_utils.as_int r = Some n /\ 0 <= n)
  /\ (forall n : Z, 0 <= n ->
      lighter_utils.validate_account_index py_int (JInt n) = inl (JInt n)
      /\ (forall s : string, py_int s = Some n ->
          lighter_utils.validate_account_index py_int (JStr s) = inl (JInt n)))
  /\ (forall n : Z, n < 0 ->
      lighter_utils.validate_account_index py_int (JInt n)
      = inr "Account index must be a positive integer"%string
      /\ (forall s : string, py_int s = Some n ->
          lighter_utils.validate_account_index py_int (JStr s)
          = inr "Account index: Value must be at least 0"%string))
  /\ (forall b : bool,
        lighter_utils.validate_account_index py_int (JBool b) = inl (JBool b)).
Proof.
  unfold lighter_utils.validate_account_index, lighter_utils.validate_index.
  split; [|split; [|split]].
  - destruct v as [|b|n|f|s|items|fields]; cbn [lighter_utils.as_int]; try discriminate.
    + destruct b; cbn; intros [= <-]; cbn; eexists; (split; [reflexivity|lia]).
    + destruct (Z.ltb_spec n 0); cbn [orb]; try discriminate.
      intros [= <-]. exists n. now split.
    + destruct (lighter_utils.validate_int py_int s (Some 0) None); [discriminate|].
      destruct (py_int s) as [n|]; [|discriminate]. cbn [lighter_utils.as_int].
      destruct (Z.ltb_spec n 0); cbn [orb]; try discriminate.
      intros [= <-]. exists n. now split.
  - intros n Hn. split.
    + cbn [lighter_utils.as_int]. destruct (Z.ltb_spec n 0); [lia|reflexivity].
    + intros s Hs.
      assert (Hv : lighter_utils.validate_int py_int s (Some 0) None = None).
      { apply validate_int_none. exists n. split; [exact Hs|].
        split; intros ? [= <-]; lia. }
      rewrite Hv, Hs. cbn [lighter_utils.as_int].
      destruct (Z.ltb_spec n 0); [lia|reflexivity].
  - intros n Hn. split.
    + cbn [lighter_utils.as_int]. destruct (Z.ltb_spec n 0); [reflexivity|lia].
    + intros s Hs. unfold lighter_utils.validate_int. rewrite Hs.
      destruct (Z.ltb_spec n 0); [reflexivity|lia].
  - intros b. now destruct b.
Qed.

Lemma account_index_accepts_booleans_witness :
  lighter_utils.validate_account_index (fun _ => Some (-1)) (JStr "-1")
  = inr "Account index: Value must be at least 0"%string.
Proof.
  apply (proj2 (proj1 (proj2 (proj2 (account_index_accepts_booleans (fun _ => Some (-1))
           JNull JNull))) (-1) ltac:(lia)) "-1"%string eq_refl).
Defined.

(** ** Placing and cancelling orders *)

Lemma contains_suffix (p a b : string) :
  PyStr.contains p b = true -> PyStr.contains p (a ++ b) = true.
Proof.
  intros H. induction a as [|c a IH]; [exact H|].
  change (String c a ++ b)%string with (String c (a ++ b)).
  cbn [PyStr.contains]. rewrite IH. apply orb_true_r.
Qed.

Lemma startswith_sep (p a b : string) (c : ascii) :
  ~ In c (list_ascii_of_string p) ->
  PyStr.startswith p (a ++ String c b) = PyStr.startswith p a.
Proof.
  revert a. induction p as [|x p IH]; intros a Hc; [reflexivity|].
  cbn [list_ascii_of_string] in Hc.
  destruct a as [|y a].
  - change ("" ++ String c b)%string with (String c b). cbn [PyStr.startswith].
    destruct (Ascii.eqb_spec x c) as [->|_]; [|reflexivity].
    exfalso. apply Hc. now left.
  - change (String y a ++ String c b)%string with (String y (a ++ String c b)).
    cbn [PyStr.startswith]. rewrite IH; [reflexivity|].
    intros Hin. apply Hc. now right.
Qed.

(** A needle without the character [c] lies on one side of a [c]. *)
Lemma contains_sep (p a b : string) (c : ascii) :
  ~ In c (list_ascii_of_string p) ->
  PyStr.contains p (a ++ String c b)
  = (PyStr.contains p a || PyStr.contains p b)%bool.
Proof.
  intros Hc. induction a as [|y a IH].
  - change ("" ++ String c b)%string with (String c b). cbn [PyStr.contains].
    rewrite <- (startswith_sep p "" b c Hc).
    change ("" ++ String c b)%string with (String c b).
    now rewrite orb_false_r.
  - change (String y a ++ String c b)%string with (String y (a ++ String c b)).
    cbn [PyStr.contains].
    rewrite IH. rewrite <- (startswith_sep p (String y a) b c Hc).
    change (String y a ++ String c b)%string with (String y (a ++ String c b)).
    now rewrite orb_assoc.
Qed.

Lemma append_assoc (a b c : string) : ((a ++ b) ++ c = a ++ (b ++ c))%string.
Proof.
  induction a as [|x a IH]; [reflexivity|].
  change (String x a ++ b)%string with (String x (a ++ b)).
  change (String x (a ++ b) ++ c)%string with (String x ((a ++ b) ++ c)).
  now rewrite IH.
Qed.

Lemma lower_app (a b : string) :
  PyStr.lower (a ++ b) = (PyStr.lower a ++ PyStr.lower b)%string.
Proof.
  induction a as [|x a IH]; [reflexivity|].
  change (String x a ++ b)%string with (String x (a ++ b)).
  cbn [PyStr.lower]. now rewrite IH.
Qed.

(** X13.  The body that the spot [_place_order] posts carries the market id
    of the symbol (0 for a symbol the connector does not know), the two
    integers computed from the price and the amount, and the order kind:
    market orders are sent as type 1 and immediate-or-cancel, maker orders
    as limit and post-only, every other order as limit and good-till-time.
    On a URL that contains "/sendTx", which the order URL of every domain
    does, [add_auth_to_params_post] hands exactly these values and the next
    nonce to the SDK's [sign_create_order], in one call. *)
Theorem spot_order_is_signed_as_create_order (sdk : SignerClient)
    (py_str : json -> string) (symbol_to_market_id : gmap string json)
    (symbol order_id : string) (amount price : float) (trade_type : TradeType.t)
    (order_type : OrderType.t) (client_order_index : Z) (order_result : json)
    (current_timestamp : float) (url : string) (a : LighterAuth.t)
    (amount_int price_int : Z) :
  PyNum.format_price_for_lighter price 8 = inl price_int ->
  PyNum.format_amount_for_lighter amount 8 = inl amount_int ->
  PyStr.contains "/sendTx" url = true ->
  let market_id := default (JInt 0) (symbol_to_market_id !! symbol) in
  let is_buy := JBool (match trade_type with TradeType.BUY => true | _ => false end) in
  let kind :=
    match order_type with
    | OrderType.MARKET => (1, 0)
    | OrderType.LIMIT_MAKER => (0, 2)
    | _ => (0, 1)
    end in
  let nonce := _NonceManager._last (LighterAuth._nonce a) + 1 in
  exists body : gmap string json,
    snd (LighterExchangeOrders._place_order py_str symbol_to_market_id symbol order_id
           amount price trade_type order_type client_order_index order_result
           current_timestamp)
    = [ApiPost CONSTANTS.CREATE_ORDER_URL body]
    /\ LighterAuth.add_auth_to_params_post sdk (Some body) url a
       = (sign_create_order sdk market_id is_buy (JInt amount_int) (JInt price_int)
            (JInt (fst kind)) (JInt (snd kind)) (JInt client_order_index) nonce,
          LighterAuth.call_signer
            (SignCreateOrder market_id is_buy (JInt amount_int) (JInt price_int)
               (JInt (fst kind)) (JInt (snd kind)) (JInt client_order_index) nonce)
            (bump a))
    /\ (forall domain : string,
          PyStr.contains "/sendTx"
            (web_utils.private_rest_url CONSTANTS.CREATE_ORDER_URL domain) = true).
Proof.
  intros Hprice Hamount Hurl market_id is_buy kind nonce.
  exists (LighterExchangeOrders.place_order_params market_id trade_type amount_int
            price_int order_type client_order_index).
  split; [|split].
  - unfold LighterExchangeOrders._place_order. rewrite Hprice, Hamount.
    fold market_id. unfold LighterExchangeOrders.get_market_id.
    destruct order_result as [| | | | | |result]; try reflexivity.
    destruct (PyOp.in_strs _ _); [reflexivity|].
    destruct (result !! "timestamp"%string) as [ts|]; [|reflexivity].
    now destruct (PyNum.truediv_1000 ts).
  - destruct (add_auth_to_params_post_sendTx sdk
                (LighterExchangeOrders.place_order_params market_id trade_type amount_int
                   price_int order_type client_order_index) url a Hurl) as [Hcreate _].
    cbv zeta in Hcreate. rewrite Hcreate by reflexivity.
    unfold LighterAuth._sign_create_order_params.
    subst kind nonce is_buy.
    destruct order_type; reflexivity.
  - intros domain. unfold web_utils.private_rest_url.
    now rewrite contains_sendTx_rest_url.
Qed.

Lemma spot_order_is_signed_as_create_order_witness :
  exists body : gmap string json,
    snd (LighterExchangeOrders._place_order Scenario.py_str ∅ "ETH-USDC" "hbot-1"
           2%float 1.5%float TradeType.BUY OrderType.LIMIT_MAKER 77 JNull 0%float)
    = [ApiPost CONSTANTS.CREATE_ORDER_URL body]
    /\ Py.get body "price" = JInt 150000000.
Proof.
  destruct (spot_order_is_signed_as_create_order Scenario.sdk Scenario.py_str ∅
              "ETH-USDC" "hbot-1" 2%float 1.5%float TradeType.BUY OrderType.LIMIT_MAKER
              77 JNull 0%float Scenario.send_tx_url LighterAuth.init 200000000 150000000
              eq_refl eq_refl eq_refl) as (body & Hposted & _).
  exists body. split; [exact Hposted|].
  cbn in Hposted. injection Hposted as <-. reflexivity.
Defined.

(** X14.  The body that the spot [_place_cancel] posts has the keys
    "market_id" and "order_index" and no "base_amount": on a URL that
    contains "/sendTx" it is signed by the SDK's [sign_cancel_order] with the
    next nonce, in one call.  An order whose exchange id is not known yet is
    signed all the same, with [None] as its order index. *)
Theorem spot_cancel_is_signed_as_cancel_order (sdk : SignerClient)
    (py_str : json -> string) (symbol_to_market_id : gmap string json)
    (symbol order_id : string) (tracked_order : InFlightOrder.t)
    (cancel_result : json) (url : string) (a : LighterAuth.t) :
  PyStr.contains "/sendTx" url = true ->
  let market_id := default (JInt 0) (symbol_to_market_id !! symbol) in
  let order_index :=
    match InFlightOrder.exchange_order_id tracked_order with
    | Some id => JStr id
    | None => JNull
    end in
  let nonce := _NonceManager._last (LighterAuth._nonce a) + 1 in
  exists (body : gmap string json) (later : list OrderEvent),
    snd (LighterExchangeOrders._place_cancel py_str symbol_to_market_id symbol order_id
           tracked_order cancel_result)
    = ApiPost CONSTANTS.CANCEL_ORDER_URL body :: later
    /\ LighterAuth.add_auth_to_params_post sdk (Some body) url a
       = (sign_cancel_order sdk market_id order_index nonce,
          LighterAuth.call_signer (SignCancelOrder market_id order_index nonce) (bump a)).
Proof.
  intros Hurl market_id order_index nonce.
  exists (LighterExchangeOrders.place_cancel_params market_id
            (InFlightOrder.exchange_order_id tracked_order)).
  assert (Hsigned :
    LighterAuth.add_auth_to_params_post sdk
      (Some (LighterExchangeOrders.place_cancel_params market_id
               (InFlightOrder.exchange_order_id tracked_order))) url a
    = (sign_cancel_order sdk market_id order_index nonce,
       LighterAuth.call_signer (SignCancelOrder market_id order_index nonce) (bump a))).
  { destruct (add_auth_to_params_post_sendTx sdk
                (LighterExchangeOrders.place_cancel_params market_id
                   (InFlightOrder.exchange_order_id tracked_order)) url a Hurl)
      as (_ & Hcancel & _).
    cbv zeta in Hcancel. now rewrite Hcancel by reflexivity. }
  unfold LighterExchangeOrders._place_cancel, LighterExchangeOrders.get_market_id.
  fold market_id.
  destruct cancel_result as [| | | | | |result];
    try (eexists; split; [reflexivity|exact Hsigned]).
  destruct (PyOp.in_strs _ _); [|eexists; split; [reflexivity|exact Hsigned]].
  destruct (PyOp.str_in _ _) as [[|]|]; eexists; (split; [reflexivity|exact Hsigned]).
Qed.

Lemma spot_cancel_is_signed_as_cancel_order_witness :
  exists (body : gmap string json) (later : list OrderEvent),
    snd (LighterExchangeOrders._place_cancel Scenario.py_str ∅ "ETH-USDC" "HBOT-1"
           Scenario.order77 JNull)
    = ApiPost CONSTANTS.CANCEL_ORDER_URL body :: later.
Proof.
  destruct (spot_cancel_is_signed_as_cancel_order Scenario.sdk Scenario.py_str ∅
              "ETH-USDC" "HBOT-1" Scenario.order77 JNull Scenario.send_tx_url
              LighterAuth.init eq_refl) as (body & later & Hposted & _).
  now exists body, later.
Defined.

(** X15.  When the exchange answers a cancel with the status "error", the
    spot [_place_cancel] never returns: it raises.  With a text message it
    raises [IOError("Error cancelling order <id>: <message>")], and it tells
    the order tracker that the order was not found exactly when the message
    contains "order not found".  That exception's text is recognised by
    [_is_order_not_found_during_status_update_error]; the classifier of
    cancellations, [_is_order_not_found_during_cancelation_error], looks for
    "Order does not exist" instead and recognises it only when the order id
    or the message contains those words. *)
Theorem spot_cancel_error_is_raised (py_str : json -> string)
    (symbol_to_market_id : gmap string json) (symbol order_id : string)
    (tracked_order : InFlightOrder.t) (result : gmap string json) :
  Py.get result "status" = JStr "error" ->
  let r :=
    LighterExchangeOrders._place_cancel py_str symbol_to_market_id symbol order_id
      tracked_order (JObj result) in
  (exists (cls : ErrorClass) (text : string), fst r = Fails cls text)
  /\ (forall msg : string,
        Py.get_or result "message" (JStr "") = JStr msg ->
        py_str (JStr msg) = msg ->
        let text := ("Error cancelling order " ++ order_id ++ ": " ++ msg)%string in
        fst r = Fails IOError text
        /\ not_found_calls (snd r)
           = (if PyStr.contains "order not found" msg then [order_id] else [])
        /\ (PyStr.contains "order not found" msg = true ->
            LighterExchangeOrders._is_order_not_found_during_status_update_error text = true)
        /\ LighterExchangeOrders._is_order_not_found_during_cancelation_error text
           = (PyStr.contains "Order does not exist" order_id
              || PyStr.contains "Order does not exist" msg)%bool).
Proof.
  intros Hstatus r. subst r.
  unfold LighterExchangeOrders._place_cancel. rewrite Hstatus.
  change (PyOp.in_strs (JStr "error") ["error"%string]) with true. cbv iota.
  split.
  - destruct (PyOp.str_in _ _) as [[|]|]; cbn [fst]; eauto.
  - intros msg Hmsg Hstr. rewrite Hmsg, Hstr. cbn [PyOp.str_in].
    set (text := ("Error cancelling order " ++ order_id ++ ": " ++ msg)%string).
    assert (Hcalls : forall (b : bool) (post : OrderEvent),
      (forall id, post <> ProcessOrderNotFound id) ->
      not_found_calls
        (snd (if b
              then (Fails (A := bool) IOError text,
                    [post; LogDebugNoCancellationNeeded; ProcessOrderNotFound order_id])
              else (Fails IOError text, [post])))
      = if b then [order_id] else []).
    { intros [|] [path data|path| |id] Hpost; try reflexivity;
        exfalso; exact (Hpost id eq_refl). }
    split; [|split; [|split]].
    + unfold lighter_constants.ORDER_NOT_EXIST_MESSAGE.
      now destruct (PyStr.contains "order not found" msg).
    + unfold lighter_constants.ORDER_NOT_EXIST_MESSAGE.
      apply Hcalls. discriminate.
    + intros Hfound.
      unfold LighterExchangeOrders._is_order_not_found_during_status_update_error,
        lighter_constants.ORDER_NOT_EXIST_MESSAGE.
      subst text. rewrite <- !append_assoc. now apply contains_suffix.
    + unfold LighterExchangeOrders._is_order_not_found_during_cancelation_error,
        lighter_constants.UNKNOWN_ORDER_MESSAGE.
      subst text.
      change (": " ++ msg)%string with (String ":" (" " ++ msg)).
      rewrite <- append_assoc.
      rewrite contains_sep by (cbn; intuition discriminate).
      reflexivity.
Qed.

Lemma spot_cancel_error_is_raised_witness :
  LighterExchangeOrders._place_cancel Scenario.py_str ∅ "ETH-USDC" "HBOT-1"
    Scenario.order77 (JObj Scenario2.cancel_rejected)
  = (Fails IOError "Error cancelling order HBOT-1: order not found",
     [ApiPost CONSTANTS.CANCEL_ORDER_URL
        (LighterExchangeOrders.place_cancel_params (JInt 0) (Some "77"%string));
      LogDebugNoCancellationNeeded; ProcessOrderNotFound "HBOT-1"])
  /\ LighterExchangeOrders._is_order_not_found_during_cancelation_error
       "Error cancelling order HBOT-1: order not found" = false.
Proof.
  destruct (spot_cancel_error_is_raised Scenario.py_str ∅ "ETH-USDC" "HBOT-1"
              Scenario.order77 Scenario2.cancel_rejected eq_refl) as [_ Htext].
  destruct (Htext "order not found"%string eq_refl eq_refl) as (_ & _ & _ & Hclass).
  split; [reflexivity|exact Hclass].
Defined.

(** X16.  The body that the perpetual [_place_order] posts has neither
    "base_amount" nor "order_index", so [add_auth_to_params_post] never
    hands it to the signing SDK, whatever the URL: on a "/sendTx" URL it is
    wrapped unsigned next to the nonce, on any other URL it goes out as it
    is.  A nonce is consumed either way. *)
Theorem perpetual_order_is_never_signed (sdk : SignerClient) (market_id : json)
    (trade_type : TradeType.t) (order_type : OrderType.t)
    (size price order_id : string) (position_action : PositionAction.t)
    (url : string) (a : LighterAuth.t) :
  let body :=
    LighterPerpetualOrders.place_order_params market_id trade_type order_type size price
      order_id position_action in
  let nonce := _NonceManager._last (LighterAuth._nonce a) + 1 in
  let r := LighterAuth.add_auth_to_params_post sdk (Some body) url a in
  LighterAuth._signer_client (snd r) = LighterAuth._signer_client a
  /\ _NonceManager._last (LighterAuth._nonce (snd r)) = nonce
  /\ fst r
     = (if PyStr.contains "/sendTx" url
        then JObj (<["tx" := JObj body]> (<["nonce" := JInt nonce]> ∅))
        else JObj body).
Proof.
  intros body nonce r. subst r.
  rewrite add_auth_to_params_post_branches. cbv zeta.
  change (default ∅ (Some body)) with body.
  assert (Hamount : Py.has_key body "base_amount" = false) by reflexivity.
  assert (Hindex : Py.has_key body "order_index" = false) by reflexivity.
  rewrite Hamount, Hindex, andb_false_r.
  destruct (PyStr.contains "/sendTx" url); repeat split.
Qed.

(** X17.  The perpetual [_place_cancel] sends a DELETE request, and for
    every answer of the exchange that is not a success, whatever the error,
    it tells the order tracker that the order was not found and raises
    [IOError("Order cancellation failed: <error>")].  The classifier
    [_is_order_not_found_during_cancelation_error] recognises that exception
    only when the error text, in lower case, contains "not found"; the
    default text "Unknown error" does not. *)
Theorem perpetual_cancel_failure_reports_not_found (py_str : json -> string)
    (cancel_url : string -> string) (symbol_to_market_id : gmap string json)
    (symbol order_id : string) (result : gmap string json) :
  Py.get symbol_to_market_id symbol <> JNull ->
  Py.truthy (Py.get result "success") = false ->
  let r :=
    LighterPerpetualOrders._place_cancel py_str cancel_url symbol_to_market_id symbol
      order_id (JObj result) in
  let error_msg := py_str (Py.get_or result "error" (JStr "Unknown error")) in
  let text := ("Order cancellation failed: " ++ error_msg)%string in
  fst r = Fails IOError text
  /\ snd r = [ApiDelete (cancel_url order_id); LogDebugNoCancellationNeeded;
              ProcessOrderNotFound order_id]
  /\ not_found_calls (snd r) = [order_id]
  /\ LighterPerpetualOrders._is_order_not_found_during_cancelation_error text
     = PyStr.contains "not found" (PyStr.lower error_msg)
  /\ LighterPerpetualOrders._is_order_not_found_during_cancelation_error
       "Order cancellation failed: Unknown error" = false.
Proof.
  intros Hmarket Hfail r error_msg text. subst r.
  unfold LighterPerpetualOrders._place_cancel. rewrite Hfail.
  destruct (Py.get symbol_to_market_id symbol); try (exfalso; now apply Hmarket).
  all: repeat split.
  all: unfold LighterPerpetualOrders._is_order_not_found_during_cancelation_error.
  all: subst text; rewrite lower_app.
  all: change (PyStr.lower "Order cancellation failed: ")
         with ("order cancellation failed" ++ String ":" " ")%string.
  all: rewrite append_assoc.
  all: change (String ":" " " ++ PyStr.lower error_msg)%string
         with (String ":" (" " ++ PyStr.lower error_msg)).
  all: rewrite contains_sep by (cbn; intuition discriminate).
  all: reflexivity.
Qed.

Lemma perpetual_cancel_failure_reports_not_found_witness :
  LighterPerpetualOrders._place_cancel Scenario.py_str (fun id => ("/orders/" ++ id)%string)
    Scenario2.perp_markets "ETH" "HBOT-1" (JObj Scenario2.cancel_failed)
  = (Fails IOError "Order cancellation failed: Unknown error",
     [ApiDelete "/orders/HBOT-1"; LogDebugNoCancellationNeeded;
      ProcessOrderNotFound "HBOT-1"]).
Proof.
  destruct (perpetual_cancel_failure_reports_not_found Scenario.py_str
              (fun id => ("/orders/" ++ id)%string) Scenario2.perp_markets "ETH" "HBOT-1"
              Scenario2.cancel_failed ltac:(discriminate) eq_refl)
    as (Hraised & Hevents & _).
  now apply injective_projections.
Defined.

(** ** Subscriptions across reconnections *)

(** One call of [_subscribe_channels]: the count grows by the number of
    messages sent and is the only field that changes. *)
Lemma subscribe_channels_count (market_id_of : string -> json + exn)
    (send : nat -> option exn) (ds : LighterAPIOrderBookDataSource.t) :
  let '(_, ds', evs) := LighterAPIOrderBookDataSource._subscribe_channels market_id_of send ds in
  let before := LighterAPIOrderBookDataSource._subscription_count ds in
  let after := LighterAPIOrderBookDataSource._subscription_count ds' in
  after = before + Z.of_nat (length (sent evs))
  /\ after <= Z.max before (CONSTANTS.WS_MAX_SUBSCRIPTIONS + 1)
  /\ (CONSTANTS.WS_MAX_SUBSCRIPTIONS <= before -> sent evs = [])
  /\ LighterAPIOrderBookDataSource._trading_pairs ds'
     = LighterAPIOrderBookDataSource._trading_pairs ds
  /\ LighterAPIOrderBookDataSource._current_backoff ds'
     = LighterAPIOrderBookDataSource._current_backoff ds.
Proof.
  unfold LighterAPIOrderBookDataSource._subscribe_channels.
  pose proof (subscribe_loop_count market_id_of send
                (LighterAPIOrderBookDataSource._trading_pairs ds) 0
                (LighterAPIOrderBookDataSource._subscription_count ds)) as H.
  destruct (LighterAPIOrderBookDataSource.subscribe_loop _ _ _ _ _) as [[r count'] evs].
  destruct H as (Hc & Hmax & _ & _ & Hstop).
  assert (Hsent : forall extra : LogRecord, sent (evs ++ [Log extra]) = sent evs).
  { intros extra. unfold sent. rewrite omap_app. cbn. apply app_nil_r. }
  assert (Hnone : CONSTANTS.WS_MAX_SUBSCRIPTIONS
                  <= LighterAPIOrderBookDataSource._subscription_count ds ->
                  sent evs = []).
  { intros Hge. destruct (Hstop Hge) as [_ ->].
    now destruct (LighterAPIOrderBookDataSource._trading_pairs ds). }
  destruct r as [[|cls msg]|]; [| destruct (PyStr.contains _ _) |].
  all: cbn [LighterAPIOrderBookDataSource._subscription_count
            LighterAPIOrderBookDataSource._trading_pairs
            LighterAPIOrderBookDataSource._current_backoff]; cbv zeta.
  all: rewrite ?Hsent; auto.
Qed.

(** X18.  The subscription count of a data source is never reset: over any
    number of calls of [_subscribe_channels] on the same object (one per
    reconnection), whatever the connector and the transport answer, the
    count ends at its start plus the number of subscribe messages sent in
    all the calls together.  From a count between 0 and the ceiling, at most
    1001 messages minus that count are sent over the whole life of the
    object; from a count at the ceiling, no call sends anything any more. *)
Theorem subscription_count_is_never_reset (worlds : list SubscribeWorld)
    (ds : LighterAPIOrderBookDataSource.t) :
  let '(ds', evss) := subscribe_calls worlds ds in
  let before := LighterAPIOrderBookDataSource._subscription_count ds in
  let after := LighterAPIOrderBookDataSource._subscription_count ds' in
  let total := Z.of_nat (length (concat (map sent evss))) in
  after = before + total
  /\ length evss = length worlds
  /\ LighterAPIOrderBookDataSource._trading_pairs ds'
     = LighterAPIOrderBookDataSource._trading_pairs ds
  /\ (before <= CONSTANTS.WS_MAX_SUBSCRIPTIONS ->
      total <= CONSTANTS.WS_MAX_SUBSCRIPTIONS + 1 - before)
  /\ (CONSTANTS.WS_MAX_SUBSCRIPTIONS <= before ->
      Forall (fun evs => sent evs = []) evss).
Proof.
  unfold CONSTANTS.WS_MAX_SUBSCRIPTIONS.
  revert ds. induction worlds as [|[market_id_of send] worlds IH]; intros ds.
  - cbn. repeat split; try lia. constructor.
  - cbn [subscribe_calls].
    pose proof (subscribe_channels_count market_id_of send ds) as H1.
    destruct (LighterAPIOrderBookDataSource._subscribe_channels market_id_of send ds)
      as [[c ds1] evs].
    specialize (IH ds1).
    destruct (subscribe_calls worlds ds1) as [ds2 evss].
    cbv zeta in *. unfold CONSTANTS.WS_MAX_SUBSCRIPTIONS in *.
    destruct H1 as (Hc1 & Hmax1 & Hnone1 & Hpairs1 & _).
    destruct IH as (Hc & Hlen & Hpairs & Hbound & Hstop).
    cbn [map concat length]. rewrite length_app, Nat2Z.inj_add.
    split; [lia|]. split; [now rewrite Hlen|]. split; [congruence|]. split.
    + intros Hle.
      destruct (Z.le_gt_cases (LighterAPIOrderBookDataSource._subscription_count ds1) 1000)
        as [Hle1|Hgt1].
      * specialize (Hbound Hle1). lia.
      * assert (Hnone : Forall (fun evs => sent evs = []) evss) by (apply Hstop; lia).
        assert (Hzero : length (concat (map sent evss)) = 0%nat).
        { clear -Hnone. induction Hnone as [|evs evss Hevs _ IH]; [reflexivity|].
          cbn [map concat]. now rewrite Hevs. }
        rewrite Hzero. lia.
    + intros Hge. constructor.
      * now apply Hnone1.
      * apply Hstop. lia.
Qed.

Lemma subscription_count_is_never_reset_witness :
  let '(_, evss) :=
    subscribe_calls [(Scenario.market_id_of, Scenario.send_ok);
                     (Scenario.market_id_of, Scenario.send_ok)]
      (LighterAPIOrderBookDataSource.init ["ETH-USDC"%string]) in
  Z.of_nat (length (concat (map sent evss))) <= 1001.
Proof.
  generalize (subscription_count_is_never_reset
                [(Scenario.market_id_of, Scenario.send_ok);
                 (Scenario.market_id_of, Scenario.send_ok)]
                (LighterAPIOrderBookDataSource.init ["ETH-USDC"%string])).
  destruct (subscribe_calls _ _) as [ds' evss].
  intros (_ & _ & _ & Hbound & _). apply Hbound. discriminate.
Defined.

(** ** Token refreshes of the user stream *)

Lemma waits_cons_retry (b : float) (evs : list Event) :
  waits (Log (WarnRateLimitBackoff b) :: Sleep b :: evs) = b :: waits evs.
Proof. reflexivity. Qed.

(** The loop of the user stream asks for one token per sleep, and the data
    source's token stays the one cached in the auth object. *)
Lemma user_stream_connect_loop_tokens (sdk : SignerClient)
    (attempts : list (ConnectOutcome * float)) (ds : LighterAPIUserStreamDataSource.t)
    (auth : LighterAuth.t) :
  let '(_, ds', auth', evs) :=
    LighterAPIUserStreamDataSource.connect_loop sdk attempts ds auth in
  LighterAuth._signer_client auth'
  = LighterAuth._signer_client auth
    ++ List.repeat (CreateAuthTokenWithExpiry 3600) (length (waits evs))
  /\ LighterAuth._nonce auth' = LighterAuth._nonce auth
  /\ (LighterAuth._auth_token auth = LighterAPIUserStreamDataSource._auth_token ds ->
      LighterAuth._auth_token auth' = LighterAPIUserStreamDataSource._auth_token ds')
  /\ (LighterAPIUserStreamDataSource._auth_token ds <> None ->
      LighterAPIUserStreamDataSource._auth_token ds' <> None)
  /\ sent evs = [].
Proof.
  revert ds auth. induction attempts as [|[o now] attempts IH]; intros ds auth.
  - cbn. rewrite app_nil_r. auto.
  - cbn [LighterAPIUserStreamDataSource.connect_loop].
    destruct o as [|[|cls msg]]; [cbn; rewrite app_nil_r; auto..|].
    destruct (Reconnect.is_rate_limit_error msg); [|cbn; rewrite app_nil_r; auto].
    unfold LighterAPIUserStreamDataSource._get_auth_token, LighterAuth.create_auth_token.
    match goal with
    | |- context [LighterAPIUserStreamDataSource.connect_loop sdk attempts ?d ?x] =>
        specialize (IH d x);
        destruct (LighterAPIUserStreamDataSource.connect_loop sdk attempts d x)
          as [[[c ds3] auth3] evs]
    end.
    cbn [LighterAuth.set_auth_token LighterAuth.call_signer LighterAuth._signer_client
         LighterAuth._nonce LighterAuth._auth_token
         LighterAPIUserStreamDataSource._auth_token] in IH.
    destruct IH as (Hlog & Hnonce & Htoken & Hsome & Hsent).
    rewrite waits_cons_retry. cbn [length List.repeat].
    split; [|split; [exact Hnonce|split; [intros _; now apply Htoken|split]]].
    + rewrite Hlog, <- app_assoc. reflexivity.
    + intros _. apply Hsome. discriminate.
    + exact Hsent.
Qed.

(** X19.  [_connected_websocket_assistant] of the user stream asks the
    signing SDK for a token once before the first connection attempt and
    once more after every rate-limit sleep, whatever the transport answers:
    the SDK sees one [create_auth_token_with_expiry(3600)] call more than
    the loop slept.  The nonce is left alone, nothing is sent, and the token
    the data source ends with is the one cached in the auth object.  From a
    stored backoff of the sequence 1, 2, 4, 8, 16, 32, 60, 60, ... every
    sleep and the backoff stored at the end belong to that sequence. *)
Theorem user_stream_refreshes_token_on_every_retry (sdk : SignerClient) (now0 : float)
    (attempts : list (ConnectOutcome * float)) (ds : LighterAPIUserStreamDataSource.t)
    (auth : LighterAuth.t) :
  let '(_, ds', auth', evs) :=
    LighterAPIUserStreamDataSource._connected_websocket_assistant sdk now0 attempts ds auth in
  LighterAuth._signer_client auth'
  = LighterAuth._signer_client auth
    ++ List.repeat (CreateAuthTokenWithExpiry 3600) (S (length (waits evs)))
  /\ LighterAuth._nonce auth' = LighterAuth._nonce auth
  /\ LighterAuth._auth_token auth' = LighterAPIUserStreamDataSource._auth_token ds'
  /\ LighterAPIUserStreamDataSource._auth_token ds' <> None
  /\ sent evs = []
  /\ (forall k : nat,
        LighterAPIUserStreamDataSource._current_backoff ds = expected_wait k ->
        (exists k' : nat,
           LighterAPIUserStreamDataSource._current_backoff ds' = expected_wait k')
        /\ Forall (fun w => exists j : nat, w = expected_wait j) (waits evs)).
Proof.
  unfold LighterAPIUserStreamDataSource._connected_websocket_assistant,
    LighterAPIUserStreamDataSource._get_auth_token, LighterAuth.create_auth_token.
  match goal with
  | |- context [LighterAPIUserStreamDataSource.connect_loop sdk attempts ?d ?x] =>
      pose proof (user_stream_connect_loop_tokens sdk attempts d x) as Htokens;
      pose proof (user_stream_connect_loop_follows sdk attempts d x) as Hfollows;
      destruct (LighterAPIUserStreamDataSource.connect_loop sdk attempts d x)
        as [[[c ds3] auth3] evs]
  end.
  cbn [LighterAuth.set_auth_token LighterAuth.call_signer LighterAuth._signer_client
       LighterAuth._nonce LighterAuth._auth_token
       LighterAPIUserStreamDataSource._auth_token
       LighterAPIUserStreamDataSource._current_backoff] in Htokens, Hfollows.
  destruct Htokens as (Hlog & Hnonce & Htoken & Hsome & Hsent).
  specialize (Htoken eq_refl).
  split; [|split; [exact Hnonce|split; [exact Htoken|split; [|split; [exact Hsent|]]]]].
  - rewrite Hlog, <- app_assoc. reflexivity.
  - apply Hsome. discriminate.
  - intros k Hk. rewrite Hk in Hfollows.
    pose proof (order_book_connect_loop_invariant (map fst attempts) k) as Hinv.
    destruct (LighterAPIOrderBookDataSource.connect_loop (map fst attempts) (expected_wait k))
      as [[c0 b0] evs0].
    destruct Hfollows as (_ & Hb & Hw). destruct Hinv as [Hb0 Hw0].
    rewrite Hb, Hw. now split.
Qed.

Lemma user_stream_refreshes_token_on_every_retry_witness :
  let '(_, ds', _, evs) :=
    LighterAPIUserStreamDataSource._connected_websocket_assistant Scenario.sdk 0%float
      [(ConnectRaises (PyExc "ConnectionError" "HTTP 429"), 10%float);
       (ConnectOk, 20%float)]
      LighterAPIUserStreamDataSource.init LighterAuth.init in
  (exists k' : nat, LighterAPIUserStreamDataSource._current_backoff ds' = expected_wait k')
  /\ Forall (fun w => exists j : nat, w = expected_wait j) (waits evs).
Proof.
  generalize (user_stream_refreshes_token_on_every_retry Scenario.sdk 0%float
                [(ConnectRaises (PyExc "ConnectionError" "HTTP 429"), 10%float);
                 (ConnectOk, 20%float)]
                LighterAPIUserStreamDataSource.init LighterAuth.init).
  destruct (LighterAPIUserStreamDataSource._connected_websocket_assistant _ _ _ _ _)
    as [[[c ds'] auth'] evs].
  intros (_ & _ & _ & _ & _ & Hseq). exact (Hseq 0%nat eq_refl).
Defined.

(** ** Prices and amounts as integers *)

(** X20.  An integer price from the exchange that is decoded by
    [parse_price_from_lighter] and encoded again by
    [format_price_for_lighter] (8 decimals, the connectors' default) does
    not always come back: [int] truncates the product, so the result is the
    integer itself or one unit less, for every integer from 0 to 4095; 3
    comes back as 2. *)
Theorem price_round_trip_loses_at_most_one_unit (n : Z) :
  (0 <= n < 4096 ->
   PyNum.price_round_trip n = inl n \/ PyNum.price_round_trip n = inl (n - 1))
  /\ PyNum.price_round_trip 3 = inl 2.
Proof.
  split; [|reflexivity].
  intros Hn.
  assert (Hall :
    forallb (fun k : nat =>
               let m := Z.of_nat k in
               match PyNum.price_round_trip m with
               | inl r => ((r =? m) || (r =? m - 1))%bool
               | inr _ => false
               end) (seq 0 4096) = true) by (vm_compute; reflexivity).
  rewrite forallb_forall in Hall.
  specialize (Hall (Z.to_nat n)). cbv zeta in Hall.
  rewrite Z2Nat.id in Hall by lia.
  assert (Hin : In (Z.to_nat n) (seq 0 4096)) by (apply in_seq; lia).
  specialize (Hall Hin).
  destruct (PyNum.price_round_trip n) as [r|e]; [|discriminate Hall].
  apply orb_true_iff in Hall as [H|H]; apply Z.eqb_eq in H; subst r; auto.
Qed.

Lemma price_round_trip_loses_at_most_one_unit_witness :
  PyNum.price_round_trip 6 = inl 6 \/ PyNum.price_round_trip 6 = inl (6 - 1).
Proof.
  apply (proj1 (price_round_trip_loses_at_most_one_unit 6)). lia.
Defined.



(** ** Unknown markets and incomplete answers *)

(** X22.  For a symbol without a market id the perpetual [_place_order] and
    [_place_cancel] raise [ValueError] before any request is made (the spot
    connector falls back to market 0 instead).  With a market id the order
    is posted exactly once, and the call returns an exchange order id
    exactly when the answer is a success whose "data" is an object holding
    "order_id"; the id returned is that value and the timestamp is the
    connector's clock.  A success without it raises after the order has
    been posted. *)
Theorem perpetual_order_needs_market_and_order_id (py_str : json -> string)
    (CREATE_ORDER_URL : string) (cancel_url : string -> string)
    (symbol_to_market_id : gmap string json) (symbol order_id size price : string)
    (trade_type : TradeType.t) (order_type : OrderType.t)
    (position_action : PositionAction.t) (result : gmap string json)
    (cancel_result : json) (current_timestamp : float) :
  let r :=
    LighterPerpetualOrders._place_order py_str CREATE_ORDER_URL symbol_to_market_id symbol
      order_id size price trade_type order_type position_action (JObj result)
      current_timestamp in
  (Py.get symbol_to_market_id symbol = JNull ->
   r = (Fails ValueError ("Market ID not found for symbol " ++ symbol), [])
   /\ LighterPerpetualOrders._place_cancel py_str cancel_url symbol_to_market_id symbol
        order_id cancel_result
      = (Fails ValueError ("Market ID not found for symbol " ++ symbol), []))
  /\ (Py.get symbol_to_market_id symbol <> JNull ->
      snd r
      = [ApiPost CREATE_ORDER_URL
           (LighterPerpetualOrders.place_order_params (Py.get symbol_to_market_id symbol)
              trade_type order_type size price order_id position_action)]
      /\ (forall (id : json) (ts : float),
            fst r = Done (id, ts)
            <-> Py.truthy (Py.get result "success") = true
                /\ ts = current_timestamp
                /\ exists data : gmap string json,
                     result !! "data"%string = Some (JObj data)
                     /\ data !! "order_id"%string = Some id)).
Proof.
  cbv zeta. unfold LighterPerpetualOrders._place_order, LighterPerpetualOrders._place_cancel.
  split.
  - intros ->. split; reflexivity.
  - intros Hmarket.
    destruct (Py.get symbol_to_market_id symbol) as [|b|n|f|s|items|fields] eqn:Em;
      [exfalso; now apply Hmarket|..].
    all: destruct (Py.truthy (Py.get result "success")); cbn [negb].
    all: try (split; [reflexivity|]; intros id ts; split;
              [discriminate|intros [H _]; discriminate H]).
    all: unfold PyOp.subscript.
    all: destruct (result !! "data"%string) as [[|b'|n'|f'|s'|items'|data]|] eqn:Ed.
    all: try (split; [reflexivity|]; intros id ts; split;
              [discriminate|intros (_ & _ & data0 & H & _); discriminate H]).
    all: destruct (data !! "order_id"%string) as [x|] eqn:Eo.
    all: split; [reflexivity|]; intros id ts; split.
    all: try discriminate.
    all: try (intros [= <- <-]; split; [reflexivity|]; split; [reflexivity|];
              exists data; now split).
    all: intros (_ & -> & data0 & [= <-] & Hid); rewrite Eo in Hid;
      first [discriminate Hid | now injection Hid as <-].
Qed.

Lemma perpetual_order_needs_market_and_order_id_witness :
  LighterPerpetualOrders._place_order Scenario.py_str "/api/v1/orders" ∅ "ETH" "HBOT-1"
    "1.0" "2000.5" TradeType.BUY OrderType.LIMIT PositionAction.OPEN (JObj ∅) 0%float
  = (Fails ValueError "Market ID not found for symbol ETH", []).
Proof.
  apply (proj1 (perpetual_order_needs_market_and_order_id Scenario.py_str
           "/api/v1/orders" (fun id => id) ∅ "ETH" "HBOT-1" "1.0" "2000.5" TradeType.BUY
           OrderType.LIMIT PositionAction.OPEN ∅ JNull 0%float)).
  reflexivity.
Defined.
